(** * icons_generator.py: a shallow embedding and its checked properties

    The script drives a 3D authoring host (Blender's [bpy] module): it
    normalises every mesh of the "Target" collection, builds a camera and
    light rig in a "Setup" collection and renders every mesh at five
    resolutions.

    The embedding follows the script statement by statement.  The host's
    scene is an explicit [World] value threaded through a small state and
    exception monad; Python floats are the kernel's binary64 floats, so
    comparisons, subtraction and division are the ones Python performs.

    What the host computes by itself and the script only triggers
    (matrix-vector products of [mathutils], the geometric effect of the
    [bpy.ops] operators, the choice of a unique datablock name) is taken
    through the [Host] interface.  Host-level faults (operator polls,
    file system permissions) are outside the model: every host call
    succeeds.  The file system is the POSIX one ([posixpath]). *)

From Stdlib Require Import ZArith String Ascii List Bool Lia.
From Stdlib Require Import Floats.PrimFloat DecimalString.
From stdpp Require Import base list.
Import ListNotations.

Local Open Scope string_scope.
Local Open Scope list_scope.

(** ** Python values *)

(** [mathutils.Vector] / [mathutils.Euler] of three float components. *)
Definition Vec3 : Type := (float * float * float)%type.

Definition vx (v : Vec3) : float := fst (fst v).
Definition vy (v : Vec3) : float := snd (fst v).
Definition vz (v : Vec3) : float := snd v.

(** [mathutils.Matrix]: rows of floats (4x4 for [matrix_world]). *)
Definition Matrix : Type := list (list float).

Definition identity_matrix : Matrix :=
  [ [1; 0; 0; 0]; [0; 1; 0; 0]; [0; 0; 1; 0]; [0; 0; 0; 1] ]%float.

(** [obj.bound_box]: the host always exposes eight corners. *)
Record Box8 := {
  c0 : Vec3; c1 : Vec3; c2 : Vec3; c3 : Vec3;
  c4 : Vec3; c5 : Vec3; c6 : Vec3; c7 : Vec3 }.

Definition box_corners (b : Box8) : list Vec3 :=
  [c0 b; c1 b; c2 b; c3 b; c4 b; c5 b; c6 b; c7 b].

(** The exceptions the script itself can raise. *)
Inductive PyExn :=
| ZeroDivisionError   (* float division by zero *)
| ValueError          (* min()/max() of an empty sequence *)
| KeyError            (* bpy.data.collections[name] with no such name *)
| ReferenceError.     (* a reference to a datablock that does not exist *)

(** Builtin [min(iterable)]: the first item, replaced by every later item
    that compares strictly smaller. *)
Definition py_min (xs : list float) : option float :=
  match xs with
  | [] => None
  | x :: r => Some (fold_left (fun m y => if PrimFloat.ltb y m then y else m) r x)
  end.

(** Builtin [max(iterable)]: the first item, replaced by every later item
    that compares strictly greater. *)
Definition py_max (xs : list float) : option float :=
  match xs with
  | [] => None
  | x :: r => Some (fold_left (fun m y => if PrimFloat.ltb m y then y else m) r x)
  end.

(** Builtin [max(a, b)] on two arguments. *)
Definition py_max2 (a b : float) : float :=
  if PrimFloat.ltb a b then b else a.

(** True division on floats: [ZeroDivisionError] when the divisor
    compares equal to zero (either sign), IEEE division otherwise. *)
Definition py_truediv (a b : float) : option float :=
  if PrimFloat.eqb b 0%float then None else Some (PrimFloat.div a b).

(** [math.radians]. *)
Definition math_pi : float := 0x1.921fb54442d18p+1%float.
Definition math_radians (x : float) : float :=
  PrimFloat.mul x (PrimFloat.div math_pi 180%float).

(** [str(n)] for an integer. *)
Definition py_str_int (n : Z) : string := NilZero.string_of_int (Z.to_int n).

(** [s * n] for a string and a count. *)
Fixpoint py_str_mul (s : string) (n : nat) : string :=
  match n with
  | O => ""
  | S k => s ++ py_str_mul s k
  end.

(** ** posixpath *)

Definition startswith_sep (s : string) : bool :=
  match s with
  | String c _ => Ascii.eqb c "/"
  | EmptyString => false
  end.

Fixpoint endswith_sep (s : string) : bool :=
  match s with
  | EmptyString => false
  | String c EmptyString => Ascii.eqb c "/"
  | String _ r => endswith_sep r
  end.

(** [os.path.join(a, b)]: an absolute [b] discards [a]. *)
Definition path_join (a b : string) : string :=
  if startswith_sep b then b
  else if String.eqb a "" || endswith_sep a then a ++ b
  else a ++ "/" ++ b.

(** [p.rfind("/")]: index of the last separator, [-1] when there is none. *)
Fixpoint rfind_sep_from (i : Z) (p : string) (last : Z) : Z :=
  match p with
  | EmptyString => last
  | String c r =>
      rfind_sep_from (i + 1) r (if Ascii.eqb c "/" then i else last)
  end.

Definition rfind_sep (p : string) : Z := rfind_sep_from 0 p (-1).

Fixpoint all_sep (s : string) : bool :=
  match s with
  | EmptyString => true
  | String c r => Ascii.eqb c "/" && all_sep r
  end.

(** [s.rstrip("/")]. *)
Fixpoint rstrip_sep (s : string) : string :=
  match s with
  | EmptyString => EmptyString
  | String c r =>
      match rstrip_sep r with
      | EmptyString => if Ascii.eqb c "/" then EmptyString else String c EmptyString
      | r' => String c r'
      end
  end.

(** [os.path.dirname(p)]. *)
Definition path_dirname (p : string) : string :=
  let i := (rfind_sep p + 1)%Z in
  let head := String.substring 0 (Z.to_nat i) p in
  if negb (String.eqb head "") && negb (all_sep head)
  then rstrip_sep head
  else head.

(** ** The host's data *)

Abbreviation ObjId := nat (only parsing).     (* index into [bpy.data.objects] *)
Abbreviation CollId := nat (only parsing).    (* index into [bpy.data.collections] *)

(** The transform and bounds of an object, as the script reads and writes
    them. *)
Record Geom := {
  matrix_world : Matrix;
  bound_box : Box8;
  location : Vec3;
  rotation_euler : Vec3;
  scale : Vec3 }.

Definition set_scale (s : Vec3) (g : Geom) : Geom :=
  {| matrix_world := matrix_world g; bound_box := bound_box g;
     location := location g; rotation_euler := rotation_euler g; scale := s |}.

Definition set_location (l : Vec3) (g : Geom) : Geom :=
  {| matrix_world := matrix_world g; bound_box := bound_box g;
     location := l; rotation_euler := rotation_euler g; scale := scale g |}.

Definition set_rotation_euler (r : Vec3) (g : Geom) : Geom :=
  {| matrix_world := matrix_world g; bound_box := bound_box g;
     location := location g; rotation_euler := r; scale := scale g |}.

(** An entry of [bpy.data.objects].  [obj_type] is the host's type tag
    ('MESH', 'LIGHT', 'CAMERA', ...); [obj_data] points into the camera
    and light datablocks when the script created the object. *)
Record Object := {
  obj_name : string;
  obj_type : string;
  obj_data : option nat;
  hide_render : bool;
  selected : bool;
  geom : Geom }.

Definition set_hide_render (b : bool) (o : Object) : Object :=
  {| obj_name := obj_name o; obj_type := obj_type o; obj_data := obj_data o;
     hide_render := b; selected := selected o; geom := geom o |}.

Definition set_selected (b : bool) (o : Object) : Object :=
  {| obj_name := obj_name o; obj_type := obj_type o; obj_data := obj_data o;
     hide_render := hide_render o; selected := b; geom := geom o |}.

Definition set_geom (g : Geom) (o : Object) : Object :=
  {| obj_name := obj_name o; obj_type := obj_type o; obj_data := obj_data o;
     hide_render := hide_render o; selected := selected o; geom := g |}.

(** An entry of [bpy.data.collections].  [coll_in_scene] says that the
    collection hangs (at any depth) below the scene's master collection;
    [coll_excluded] that the active view layer excludes it. *)
Record Collection := {
  coll_name : string;
  coll_objects : list ObjId;
  coll_in_scene : bool;
  coll_excluded : bool }.

Definition set_coll_objects (l : list ObjId) (c : Collection) : Collection :=
  {| coll_name := coll_name c; coll_objects := l;
     coll_in_scene := coll_in_scene c; coll_excluded := coll_excluded c |}.

Definition set_coll_in_scene (b : bool) (c : Collection) : Collection :=
  {| coll_name := coll_name c; coll_objects := coll_objects c;
     coll_in_scene := b; coll_excluded := coll_excluded c |}.

(** A collection as the script holds it: the scene's master collection or
    an entry of [bpy.data.collections]. *)
Inductive CollRef :=
| SceneMaster
| DataColl (i : CollId).

Definition CollRef_eqb (a b : CollRef) : bool :=
  match a, b with
  | SceneMaster, SceneMaster => true
  | DataColl i, DataColl j => Nat.eqb i j
  | _, _ => false
  end.

(** Camera and light datablocks ([bpy.data.cameras], [bpy.data.lights]). *)
Inductive DataBlock :=
| CameraData (name : string)
| LightData (name : string) (light_type : string) (energy : Z).

Definition datablock_name (d : DataBlock) : string :=
  match d with
  | CameraData n => n
  | LightData n _ _ => n
  end.

(** [bpy.context.scene.render] with its [image_settings]. *)
Record RenderSettings := {
  resolution_x : Z;
  resolution_y : Z;
  file_format : string;
  color_mode : string;
  film_transparent : bool;
  filepath : string }.

(** ** Observable output *)

(** One interpolated piece of a printed line. *)
Inductive Piece :=
| PStr (s : string)
| PFloat (f : float)
| PVec (v : Vec3).

Definition Line : Type := list Piece.

(** The host operators the script invokes. *)
Inductive HostOp :=
| TransformApplyScale       (* bpy.ops.object.transform_apply(scale=True) *)
| TransformApplyRotation    (* bpy.ops.object.transform_apply(rotation=True) *)
| OriginSetBounds           (* bpy.ops.object.origin_set(ORIGIN_GEOMETRY, BOUNDS) *)
| LocationClear             (* bpy.ops.object.location_clear(clear_delta=False) *)
| ViewLayerUpdate.          (* bpy.context.view_layer.update() *)

(** Calls that leave the script, in the order they are made. *)
Inductive HostCall :=
| HModeSet (mode : string)
| HOperator (op : HostOp)
| HRender (path : string)
| HMakeDirs (path : string).

(** Entries into the two per-object routines of the script, recorded as
    ghost state so that properties can speak about which object was
    processed, by identity. *)
Inductive Call :=
| CStandardize (obj : ObjId)
| CRender (obj : ObjId) (resolution : Z) (output_dir : string).

(** ** The world *)

Record World := {
  blend_filepath : string;          (* bpy.data.filepath *)
  mode : string;                    (* interaction mode *)
  objects : list Object;            (* bpy.data.objects *)
  collections : list Collection;    (* bpy.data.collections *)
  master_objects : list ObjId;      (* scene.collection.objects *)
  datablocks : list DataBlock;      (* bpy.data.cameras and bpy.data.lights *)
  scene_camera : option ObjId;      (* scene.camera *)
  active_object : option ObjId;     (* view_layer.objects.active *)
  render : RenderSettings;          (* scene.render *)
  fs : list string;                 (* paths that exist on disk *)
  stdout : list Line;
  host_calls : list HostCall;
  calls : list Call }.

Definition set_mode (v : string) (w : World) : World :=
  {| blend_filepath := blend_filepath w; mode := v; objects := objects w;
     collections := collections w; master_objects := master_objects w;
     datablocks := datablocks w;
     scene_camera := scene_camera w; active_object := active_object w;
     render := render w; fs := fs w; stdout := stdout w;
     host_calls := host_calls w; calls := calls w |}.

Definition set_objects (v : list Object) (w : World) : World :=
  {| blend_filepath := blend_filepath w; mode := mode w; objects := v;
     collections := collections w; master_objects := master_objects w;
     datablocks := datablocks w;
     scene_camera := scene_camera w; active_object := active_object w;
     render := render w; fs := fs w; stdout := stdout w;
     host_calls := host_calls w; calls := calls w |}.

Definition set_collections (v : list Collection) (w : World) : World :=
  {| blend_filepath := blend_filepath w; mode := mode w;
     objects := objects w; collections := v;
     master_objects := master_objects w; datablocks := datablocks w;
     scene_camera := scene_camera w;
     active_object := active_object w; render := render w; fs := fs w;
     stdout := stdout w; host_calls := host_calls w; calls := calls w |}.

Definition set_master_objects (v : list ObjId) (w : World) : World :=
  {| blend_filepath := blend_filepath w; mode := mode w;
     objects := objects w; collections := collections w; master_objects := v;
     datablocks := datablocks w;
     scene_camera := scene_camera w; active_object := active_object w;
     render := render w; fs := fs w; stdout := stdout w;
     host_calls := host_calls w; calls := calls w |}.

Definition set_datablocks (v : list DataBlock) (w : World) : World :=
  {| blend_filepath := blend_filepath w; mode := mode w;
     objects := objects w; collections := collections w;
     master_objects := master_objects w; datablocks := v;
     scene_camera := scene_camera w;
     active_object := active_object w; render := render w; fs := fs w;
     stdout := stdout w; host_calls := host_calls w; calls := calls w |}.

Definition set_scene_camera (v : option ObjId) (w : World) : World :=
  {| blend_filepath := blend_filepath w; mode := mode w;
     objects := objects w; collections := collections w;
     master_objects := master_objects w; datablocks := datablocks w;
     scene_camera := v;
     active_object := active_object w; render := render w; fs := fs w;
     stdout := stdout w; host_calls := host_calls w; calls := calls w |}.

Definition set_active_object (v : option ObjId) (w : World) : World :=
  {| blend_filepath := blend_filepath w; mode := mode w;
     objects := objects w; collections := collections w;
     master_objects := master_objects w; datablocks := datablocks w;
     scene_camera := scene_camera w;
     active_object := v; render := render w; fs := fs w; stdout := stdout w;
     host_calls := host_calls w; calls := calls w |}.

Definition set_render (v : RenderSettings) (w : World) : World :=
  {| blend_filepath := blend_filepath w; mode := mode w;
     objects := objects w; collections := collections w;
     master_objects := master_objects w; datablocks := datablocks w;
     scene_camera := scene_camera w;
     active_object := active_object w; render := v; fs := fs w;
     stdout := stdout w; host_calls := host_calls w; calls := calls w |}.

Definition set_fs (v : list string) (w : World) : World :=
  {| blend_filepath := blend_filepath w; mode := mode w;
     objects := objects w; collections := collections w;
     master_objects := master_objects w; datablocks := datablocks w;
     scene_camera := scene_camera w;
     active_object := active_object w; render := render w; fs := v;
     stdout := stdout w; host_calls := host_calls w; calls := calls w |}.

Definition set_stdout (v : list Line) (w : World) : World :=
  {| blend_filepath := blend_filepath w; mode := mode w;
     objects := objects w; collections := collections w;
     master_objects := master_objects w; datablocks := datablocks w;
     scene_camera := scene_camera w;
     active_object := active_object w; render := render w; fs := fs w;
     stdout := v; host_calls := host_calls w; calls := calls w |}.

Definition set_host_calls (v : list HostCall) (w : World) : World :=
  {| blend_filepath := blend_filepath w; mode := mode w;
     objects := objects w; collections := collections w;
     master_objects := master_objects w; datablocks := datablocks w;
     scene_camera := scene_camera w;
     active_object := active_object w; render := render w; fs := fs w;
     stdout := stdout w; host_calls := v; calls := calls w |}.

Definition set_calls (v : list Call) (w : World) : World :=
  {| blend_filepath := blend_filepath w; mode := mode w;
     objects := objects w; collections := collections w;
     master_objects := master_objects w; datablocks := datablocks w;
     scene_camera := scene_camera w;
     active_object := active_object w; render := render w; fs := fs w;
     stdout := stdout w; host_calls := host_calls w; calls := v |}.

(** ** The script's monad: state and Python exceptions *)

Inductive Outcome (A : Type) :=
| Return (a : A) (w : World)      (* normal completion *)
| Raise (e : PyExn) (w : World).  (* uncaught exception, world at the raise *)

Arguments Return {A} a w.
Arguments Raise {A} e w.

Definition M (A : Type) : Type := World -> Outcome A.

Definition ret {A} (a : A) : M A := fun w => Return a w.

Definition bind {A B} (m : M A) (k : A -> M B) : M B :=
  fun w =>
    match m w with
    | Return a w' => k a w'
    | Raise e w' => Raise e w'
    end.

Notation "'do' x <- m ; k" := (bind m (fun x => k))
  (at level 10, x name, m at level 100, k at level 200).
Notation "'do' ' p <- m ; k" := (bind m (fun x => let 'p := x in k))
  (at level 10, p pattern, m at level 100, k at level 200).
Notation "m ;; k" := (bind m (fun _ => k))
  (at level 100, k at level 200, right associativity).

Definition raise {A} (e : PyExn) : M A := fun w => Raise e w.
Definition gets {A} (f : World -> A) : M A := fun w => Return (f w) w.
Definition modify (f : World -> World) : M unit := fun w => Return tt (f w).

(** [for x in xs: body(x)] over a sequence fixed when the loop starts. *)
Fixpoint for_each {A} (xs : list A) (body : A -> M unit) : M unit :=
  match xs with
  | [] => ret tt
  | x :: r => body x ;; for_each r body
  end.

Definition print (l : Line) : M unit :=
  modify (fun w => set_stdout (stdout w ++ [l]) w).

Definition host_call (c : HostCall) : M unit :=
  modify (fun w => set_host_calls (host_calls w ++ [c]) w).

Definition enter (c : Call) : M unit :=
  modify (fun w => set_calls (calls w ++ [c]) w).

(** Reading an object through a reference. *)
Definition get_object (obj : ObjId) : M Object :=
  fun w =>
    match objects w !! obj with
    | Some o => Return o w
    | None => Raise ReferenceError w
    end.

Definition update_object (obj : ObjId) (f : Object -> Object) : M unit :=
  modify (fun w => set_objects (alter f obj (objects w)) w).

Definition from_option {A} (e : PyExn) (o : option A) : M A :=
  match o with
  | Some a => ret a
  | None => raise e
  end.

(** ** The host interface *)

(** What the host computes on its own.  [unique_name names n] is the name
    a new datablock receives when [n] is requested and [names] are taken;
    a free name is granted as requested. *)
Class Host := {
  mat_vec_mul : Matrix -> Vec3 -> Vec3;        (* matrix @ vector *)
  host_op_effect : HostOp -> Geom -> Geom;     (* effect of an operator on one object *)
  fresh_geom : Geom;                           (* transform of a new object *)
  unique_name : list string -> string -> string;
  unique_name_free : forall names n,
    existsb (String.eqb n) names = false -> unique_name names n = n }.

Definition mem_id (i : nat) (l : list nat) : bool := existsb (Nat.eqb i) l.

(** Membership of an object in the scene and in the active view layer. *)
Definition in_scene (w : World) (i : ObjId) : bool :=
  mem_id i (master_objects w)
  || existsb (fun c => coll_in_scene c && mem_id i (coll_objects c)) (collections w).

Definition in_view_layer (w : World) (i : ObjId) : bool :=
  mem_id i (master_objects w)
  || existsb (fun c => coll_in_scene c && negb (coll_excluded c)
                       && mem_id i (coll_objects c)) (collections w).

(** [bpy.context.scene.objects] *)
Definition scene_objects (w : World) : list ObjId :=
  List.filter (in_scene w) (seq 0 (length (objects w))).

(** [bpy.context.view_layer.objects] *)
Definition view_layer_objects (w : World) : list ObjId :=
  List.filter (in_view_layer w) (seq 0 (length (objects w))).

Definition coll_has (w : World) (i : CollId) (obj : ObjId) : bool :=
  match collections w !! i with
  | Some c => mem_id obj (coll_objects c)
  | None => false
  end.

(** [obj.users_collection] *)
Definition users_collection (w : World) (obj : ObjId) : list CollRef :=
  (if mem_id obj (master_objects w) then [SceneMaster] else [])
  ++ map DataColl
       (List.filter (fun i => coll_has w i obj) (seq 0 (length (collections w)))).

Fixpoint find_collection_from (i : CollId) (n : string) (cs : list Collection)
  : option CollId :=
  match cs with
  | [] => None
  | c :: r =>
      if String.eqb (coll_name c) n then Some i
      else find_collection_from (S i) n r
  end.

Definition find_collection (n : string) (w : World) : option CollId :=
  find_collection_from 0 n (collections w).

(** [n in bpy.data.collections] *)
Definition collection_exists (n : string) : M bool :=
  gets (fun w => match find_collection n w with Some _ => true | None => false end).

(** [bpy.data.collections[n]] *)
Definition collection_by_name (n : string) : M CollRef :=
  do found <- gets (find_collection n) ;
  match found with
  | Some i => ret (DataColl i)
  | None => raise KeyError
  end.

(** [coll.objects] *)
Definition collection_objects (c : CollRef) : M (list ObjId) :=
  gets (fun w =>
    match c with
    | SceneMaster => master_objects w
    | DataColl i =>
        match collections w !! i with
        | Some c => coll_objects c
        | None => []
        end
    end).

Definition link_in (obj : ObjId) (c : Collection) : Collection :=
  set_coll_objects (coll_objects c ++ [obj]) c.

(** [coll.objects.link(obj)] *)
Definition link_object (c : CollRef) (obj : ObjId) : M unit :=
  match c with
  | SceneMaster => modify (fun w => set_master_objects (master_objects w ++ [obj]) w)
  | DataColl i =>
      modify (fun w => set_collections (alter (link_in obj) i (collections w)) w)
  end.

Definition remove_id (obj : ObjId) (l : list ObjId) : list ObjId :=
  List.filter (fun j => negb (Nat.eqb j obj)) l.

Definition unlink_in (obj : ObjId) (c : Collection) : Collection :=
  set_coll_objects (remove_id obj (coll_objects c)) c.

(** [coll.objects.unlink(obj)] *)
Definition unlink_object (c : CollRef) (obj : ObjId) : M unit :=
  match c with
  | SceneMaster => modify (fun w => set_master_objects (remove_id obj (master_objects w)) w)
  | DataColl i =>
      modify (fun w => set_collections (alter (unlink_in obj) i (collections w)) w)
  end.

(** [bpy.context.scene.collection.children.link(coll)] *)
Definition link_child_to_scene (c : CollRef) : M unit :=
  match c with
  | SceneMaster => ret tt
  | DataColl i =>
      modify (fun w =>
        set_collections (alter (set_coll_in_scene true) i (collections w)) w)
  end.

Definition object_type_of_data (d : option DataBlock) : string :=
  match d with
  | Some (CameraData _) => "CAMERA"
  | Some (LightData _ _ _) => "LIGHT"
  | None => "EMPTY"
  end.

Definition is_camera_data (d : DataBlock) : bool :=
  match d with CameraData _ => true | LightData _ _ _ => false end.

Definition set_energy (e : Z) (d : DataBlock) : DataBlock :=
  match d with
  | LightData n t _ => LightData n t e
  | CameraData n => CameraData n
  end.

Section Script.
Context `{Host}.

(** [bpy.data.collections.new(name)] *)
Definition new_collection (name : string) : M CollRef :=
  fun w =>
    Return (DataColl (length (collections w)))
      (set_collections
         (collections w ++
            [ {| coll_name := unique_name (map coll_name (collections w)) name;
                 coll_objects := []; coll_in_scene := false;
                 coll_excluded := false |} ]) w).

(** [bpy.data.cameras.new(name=...)] *)
Definition new_camera_data (name : string) : M nat :=
  fun w =>
    let taken := map datablock_name (List.filter is_camera_data (datablocks w)) in
    Return (length (datablocks w))
      (set_datablocks (datablocks w ++ [CameraData (unique_name taken name)]) w).

(** [bpy.data.lights.new(name=..., type=...)] *)
Definition new_light_data (name : string) (light_type : string) : M nat :=
  fun w =>
    let taken :=
      map datablock_name
          (List.filter (fun d => negb (is_camera_data d)) (datablocks w)) in
    Return (length (datablocks w))
      (set_datablocks
         (datablocks w ++ [LightData (unique_name taken name) light_type 0]) w).

(** [light_data.energy = e] *)
Definition set_light_energy (d : nat) (e : Z) : M unit :=
  modify (fun w => set_datablocks (alter (set_energy e) d (datablocks w)) w).

(** [bpy.data.objects.new(name=..., object_data=...)]: the new object is
    in no collection. *)
Definition new_object (name : string) (data : nat) : M ObjId :=
  fun w =>
    Return (length (objects w))
      (set_objects
         (objects w ++
            [ {| obj_name := unique_name (map obj_name (objects w)) name;
                 obj_type := object_type_of_data (datablocks w !! data);
                 obj_data := Some data;
                 hide_render := false; selected := false;
                 geom := fresh_geom |} ]) w).

(** [bpy.ops.object.mode_set(mode=...)] *)
Definition mode_set (m : string) : M unit :=
  host_call (HModeSet m) ;; modify (set_mode m).

(** An object operator: it acts on every selected object. *)
Definition run_operator (op : HostOp) : M unit :=
  host_call (HOperator op) ;;
  modify (fun w =>
    set_objects
      (map (fun o => if selected o
                     then set_geom (host_op_effect op (geom o)) o else o)
           (objects w)) w).

(** [bpy.context.view_layer.update()]: re-evaluates every object of the
    view layer. *)
Definition view_layer_update : M unit :=
  host_call (HOperator ViewLayerUpdate) ;;
  modify (fun w =>
    set_objects
      (imap (fun i o => if in_view_layer w i
                        then set_geom (host_op_effect ViewLayerUpdate (geom o)) o
                        else o)
            (objects w)) w).

(** [os.makedirs(p)] *)
Definition makedirs (p : string) : M unit :=
  host_call (HMakeDirs p) ;; modify (fun w => set_fs (fs w ++ [p]) w).

(** [bpy.ops.render.render(write_still=True)]: renders the scene and
    writes the image at [scene.render.filepath]. *)
Definition render_write_still : M unit :=
  do path <- gets (fun w => filepath (render w)) ;
  host_call (HRender path) ;;
  modify (fun w => set_fs (fs w ++ [path]) w).

(** ** The script *)

Definition RESOLUTIONS : list Z := [1024; 512; 256; 128; 64]%Z.

Definition default_target_size : float := 2%float.

Definition scale_object_to_fit_camera (obj : ObjId) (target_size : float) : M unit :=
  mode_set "OBJECT" ;;
  do o <- get_object obj ;
  let bounding_box :=
    map (mat_vec_mul (matrix_world (geom o))) (box_corners (bound_box (geom o))) in
  do min_x <- from_option ValueError (py_min (map vx bounding_box)) ;
  do max_x <- from_option ValueError (py_max (map vx bounding_box)) ;
  do min_y <- from_option ValueError (py_min (map vy bounding_box)) ;
  do max_y <- from_option ValueError (py_max (map vy bounding_box)) ;
  do min_z <- from_option ValueError (py_min (map vz bounding_box)) ;
  do max_z <- from_option ValueError (py_max (map vz bounding_box)) ;
  let width := PrimFloat.sub max_x min_x in
  let depth := PrimFloat.sub max_y min_y in
  let height := PrimFloat.sub max_z min_z in
  let front_plane := "XY" in
  print [PStr "Object bounding box dimensions - Width: "; PFloat width;
         PStr ", Depth: "; PFloat depth; PStr ", Height: "; PFloat height] ;;
  if String.eqb front_plane "XY" then
    let largest_dimension := py_max2 width depth in
    do scale_factor <-
      from_option ZeroDivisionError (py_truediv target_size largest_dimension) ;
    print [PStr "Scaling the object to fit the front plane XY. Largest dimension: ";
           PFloat largest_dimension; PStr ". Scale factor: "; PFloat scale_factor] ;;
    update_object obj
      (fun o => set_geom (set_scale (scale_factor, scale_factor, scale_factor) (geom o)) o)
  else if String.eqb front_plane "YZ" then
    let largest_dimension := py_max2 height depth in
    do scale_factor <-
      from_option ZeroDivisionError (py_truediv target_size largest_dimension) ;
    print [PStr "Scaling the object to fit the front plane YZ. Largest dimension: ";
           PFloat largest_dimension; PStr ". Scale factor: "; PFloat scale_factor] ;;
    update_object obj
      (fun o => set_geom (set_scale (scale_factor, scale_factor, scale_factor) (geom o)) o)
  else if String.eqb front_plane "ZX" then
    let largest_dimension := py_max2 width height in
    do scale_factor <-
      from_option ZeroDivisionError (py_truediv target_size largest_dimension) ;
    print [PStr "Scaling the object to fit the front plane ZX. Largest dimension: ";
           PFloat largest_dimension; PStr ". Scale factor: "; PFloat scale_factor] ;;
    update_object obj
      (fun o => set_geom (set_scale (scale_factor, scale_factor, scale_factor) (geom o)) o)
  else ret tt.

Definition create_icons_folder : M string :=
  do base_dir <- gets (fun w => path_dirname (blend_filepath w)) ;
  let icons_dir := path_join base_dir "Icons" in
  do present <- gets (fun w => existsb (String.eqb icons_dir) (fs w)) ;
  (if negb present then
     makedirs icons_dir ;;
     print [PStr "Created 'Icons' folder at: "; PStr icons_dir]
   else ret tt) ;;
  ret icons_dir.

Definition set_resolution_x (r : Z) (s : RenderSettings) : RenderSettings :=
  {| resolution_x := r; resolution_y := resolution_y s;
     file_format := file_format s; color_mode := color_mode s;
     film_transparent := film_transparent s; filepath := filepath s |}.

Definition set_resolution_y (r : Z) (s : RenderSettings) : RenderSettings :=
  {| resolution_x := resolution_x s; resolution_y := r;
     file_format := file_format s; color_mode := color_mode s;
     film_transparent := film_transparent s; filepath := filepath s |}.

Definition set_file_format (f : string) (s : RenderSettings) : RenderSettings :=
  {| resolution_x := resolution_x s; resolution_y := resolution_y s;
     file_format := f; color_mode := color_mode s;
     film_transparent := film_transparent s; filepath := filepath s |}.

Definition set_color_mode (c : string) (s : RenderSettings) : RenderSettings :=
  {| resolution_x := resolution_x s; resolution_y := resolution_y s;
     file_format := file_format s; color_mode := c;
     film_transparent := film_transparent s; filepath := filepath s |}.

Definition set_film_transparent (b : bool) (s : RenderSettings) : RenderSettings :=
  {| resolution_x := resolution_x s; resolution_y := resolution_y s;
     file_format := file_format s; color_mode := color_mode s;
     film_transparent := b; filepath := filepath s |}.

Definition set_filepath (p : string) (s : RenderSettings) : RenderSettings :=
  {| resolution_x := resolution_x s; resolution_y := resolution_y s;
     file_format := file_format s; color_mode := color_mode s;
     film_transparent := film_transparent s; filepath := p |}.

Definition modify_render (f : RenderSettings -> RenderSettings) : M unit :=
  modify (fun w => set_render (f (render w)) w).

Definition setup_render_settings (resolution : Z) : M unit :=
  modify_render (set_resolution_x resolution) ;;
  modify_render (set_resolution_y resolution) ;;
  modify_render (set_file_format "PNG") ;;
  modify_render (set_color_mode "RGBA") ;;
  modify_render (set_film_transparent true) ;;
  print [PStr "Render settings updated for resolution: ";
         PStr (py_str_int resolution); PStr "x"; PStr (py_str_int resolution)].

Definition render_object (obj : ObjId) (resolution : Z) (output_dir : string)
  : M unit :=
  enter (CRender obj resolution output_dir) ;;
  do scene_objs <- gets scene_objects ;
  for_each scene_objs (fun other_obj =>
    do other <- get_object other_obj ;
    if negb (Nat.eqb other_obj obj) && negb (String.eqb (obj_type other) "LIGHT")
    then update_object other_obj (set_hide_render true)
    else update_object other_obj (set_hide_render false)) ;;
  let output_path := path_join output_dir (py_str_int resolution ++ ".png") in
  modify_render (set_filepath output_path) ;;
  do o <- get_object obj ;
  print [PStr "Rendering "; PStr (obj_name o); PStr " at ";
         PStr (py_str_int resolution); PStr "x"; PStr (py_str_int resolution);
         PStr "..."] ;;
  render_write_still ;;
  print [PStr "Saved render to: "; PStr output_path].

Definition ensure_object_mode : M unit :=
  mode_set "OBJECT".

Definition standardize_object (obj : ObjId) : M unit :=
  enter (CStandardize obj) ;;
  do o <- get_object obj ;
  print [PStr "Processing object: "; PStr (obj_name o)] ;;
  print [PStr "Rotation: "; PVec (rotation_euler (geom o))] ;;
  print [PStr "Scale: "; PVec (scale (geom o))] ;;
  modify (set_active_object (Some obj)) ;;
  update_object obj (set_selected true) ;;
  print [PStr "Applying scale..."] ;;
  run_operator TransformApplyScale ;;
  print [PStr "Applying rotation..."] ;;
  run_operator TransformApplyRotation ;;
  print [PStr "Setting origin to center of geometry..."] ;;
  run_operator OriginSetBounds ;;
  print [PStr "Clearing location..."] ;;
  run_operator LocationClear ;;
  print [PStr "Scaling object to fit camera..."] ;;
  scale_object_to_fit_camera obj default_target_size ;;
  update_object obj (set_selected false) ;;
  print [PStr (py_str_mul "-" 40)].

Definition create_setup_collection : M CollRef :=
  do present <- collection_exists "Setup" ;
  if negb present then
    do setup_collection <- new_collection "Setup" ;
    link_child_to_scene setup_collection ;;
    print [PStr "Created 'Setup' collection."] ;;
    ret setup_collection
  else
    do setup_collection <- collection_by_name "Setup" ;
    print [PStr "'Setup' collection already exists."] ;;
    ret setup_collection.

Definition add_camera_to_collection (collection : CollRef) : M ObjId :=
  print [PStr "Adding camera..."] ;;
  do camera_data <- new_camera_data "RenderCamera" ;
  do camera_object <- new_object "RenderCamera" camera_data ;
  link_object collection camera_object ;;
  update_object camera_object
    (fun o => set_geom (set_location (0, -4, 0)%float (geom o)) o) ;;
  update_object camera_object
    (fun o => set_geom (set_rotation_euler (math_radians 90, 0, 0)%float (geom o)) o) ;;
  ret camera_object.

Definition is_light (w : World) (i : ObjId) : bool :=
  match objects w !! i with
  | Some o => String.eqb (obj_type o) "LIGHT"
  | None => false
  end.

Definition lights_exist : M bool :=
  gets (fun w => existsb (is_light w) (view_layer_objects w)).

Definition add_3_point_lighting_to_collection (collection : CollRef)
  : M (list ObjId) :=
  do found <- lights_exist ;
  if found then
    print [PStr "Lights already exist in the scene. Skipping light setup."] ;;
    ret []
  else
    print [PStr "Adding 3-point lighting..."] ;;
    (* Key Light *)
    do key_light_data <- new_light_data "KeyLight" "POINT" ;
    set_light_energy key_light_data 3000 ;;
    do key_light_object <- new_object "KeyLight" key_light_data ;
    update_object key_light_object
      (fun o => set_geom (set_location (5, -5, 5)%float (geom o)) o) ;;
    link_object collection key_light_object ;;
    (* Fill Light *)
    do fill_light_data <- new_light_data "FillLight" "POINT" ;
    set_light_energy fill_light_data 1500 ;;
    do fill_light_object <- new_object "FillLight" fill_light_data ;
    update_object fill_light_object
      (fun o => set_geom (set_location (-5, -5, 5)%float (geom o)) o) ;;
    link_object collection fill_light_object ;;
    (* Back Light *)
    do back_light_data <- new_light_data "BackLight" "POINT" ;
    set_light_energy back_light_data 900 ;;
    do back_light_object <- new_object "BackLight" back_light_data ;
    update_object back_light_object
      (fun o => set_geom (set_location (0, 5, 5)%float (geom o)) o) ;;
    link_object collection back_light_object ;;
    ret [key_light_object; fill_light_object; back_light_object].

Definition ensure_unique_in_collection (collection : CollRef) (objs : list ObjId)
  : M unit :=
  for_each objs (fun obj =>
    do users <- gets (fun w => users_collection w obj) ;
    for_each users (fun coll =>
      if negb (CollRef_eqb coll collection)
      then unlink_object coll obj
      else ret tt)) ;;
  print [PStr "Ensured objects are unique to the 'Setup' collection."].

(** Lines 220-236 of [main]: the rig. *)
Definition main_setup : M (CollRef * ObjId * list ObjId) :=
  do setup_collection <- create_setup_collection ;
  do camera_object <- add_camera_to_collection setup_collection ;
  do lights <- add_3_point_lighting_to_collection setup_collection ;
  modify (set_scene_camera (Some camera_object)) ;;
  view_layer_update ;;
  ensure_unique_in_collection setup_collection ([camera_object] ++ lights) ;;
  print [PStr "Setup complete! Camera and 3-point lighting added to the 'Setup' collection."] ;;
  ret (setup_collection, camera_object, lights).

(** Lines 238-262 of [main]: standardise, then render. *)
Definition main_render : M unit :=
  do icons_dir <- create_icons_folder ;
  do target_collection <- collection_by_name "Target" ;
  do target_objects <- collection_objects target_collection ;
  for_each target_objects (fun obj =>
    do o <- get_object obj ;
    if String.eqb (obj_type o) "MESH" then standardize_object obj else ret tt) ;;
  do target_objects <- collection_objects target_collection ;
  for_each target_objects (fun obj =>
    do o <- get_object obj ;
    if String.eqb (obj_type o) "MESH" then
      print [PStr "Processing object: "; PStr (obj_name o)] ;;
      for_each RESOLUTIONS (fun res =>
        do o <- get_object obj ;
        let icon_dir := path_join icons_dir (obj_name o) in
        setup_render_settings res ;;
        render_object obj res icon_dir) ;;
      print [PStr (py_str_mul "-" 40)]
    else ret tt) ;;
  print [PStr "Rendering complete! All icons saved in the 'Icons' folder."].

Definition main : M unit :=
  ensure_object_mode ;;
  do present <- collection_exists "Target" ;
  if negb present then
    print [PStr "Collection 'Target' does not exist."]
  else
    main_setup ;;
    main_render.

End Script.

(** * Specification-side definitions *)

Section Specification.
Context `{Host}.

(** The world an outcome ends in, whether it returned or raised. *)
Definition world_of {A} (o : Outcome A) : World :=
  match o with
  | Return _ w => w
  | Raise _ w => w
  end.

(** The object's world-space bounding-box corners (line 18). *)
Definition world_bounding_box (o : Object) : list Vec3 :=
  map (mat_vec_mul (matrix_world (geom o))) (box_corners (bound_box (geom o))).



(** The scale routine reduced to its XY branch, as the specification
    describes the reachable behaviour. *)
Definition scale_object_to_fit_camera_xy_only (obj : ObjId) (target_size : float)
  : M unit :=
  mode_set "OBJECT" ;;
  do o <- get_object obj ;
  let bounding_box := world_bounding_box o in
  do min_x <- from_option ValueError (py_min (map vx bounding_box)) ;
  do max_x <- from_option ValueError (py_max (map vx bounding_box)) ;
  do min_y <- from_option ValueError (py_min (map vy bounding_box)) ;
  do max_y <- from_option ValueError (py_max (map vy bounding_box)) ;
  do min_z <- from_option ValueError (py_min (map vz bounding_box)) ;
  do max_z <- from_option ValueError (py_max (map vz bounding_box)) ;
  let width := PrimFloat.sub max_x min_x in
  let depth := PrimFloat.sub max_y min_y in
  let height := PrimFloat.sub max_z min_z in
  print [PStr "Object bounding box dimensions - Width: "; PFloat width;
         PStr ", Depth: "; PFloat depth; PStr ", Height: "; PFloat height] ;;
  let largest_dimension := py_max2 width depth in
  do scale_factor <-
    from_option ZeroDivisionError (py_truediv target_size largest_dimension) ;
  print [PStr "Scaling the object to fit the front plane XY. Largest dimension: ";
         PFloat largest_dimension; PStr ". Scale factor: "; PFloat scale_factor] ;;
  update_object obj
    (fun o => set_geom (set_scale (scale_factor, scale_factor, scale_factor) (geom o)) o).



(** The flag [render_object obj] gives to scene object [i]. *)
Definition hide_flag (obj i : ObjId) (o : Object) : bool :=
  negb (Nat.eqb i obj) && negb (String.eqb (obj_type o) "LIGHT").

Definition hide_others (obj : ObjId) (visited : ObjId -> bool) (objs : list Object)
  : list Object :=
  imap (fun i o => if visited i then set_hide_render (hide_flag obj i o) o else o) objs.

(** The world [render_object] leaves behind. *)
Definition rendered_world (obj : ObjId) (resolution : Z) (output_dir : string)
           (target : Object) (w : World) : World :=
  let output_path := path_join output_dir (py_str_int resolution ++ ".png") in
  set_stdout
    ((stdout w ++
      [[PStr "Rendering "; PStr (obj_name target); PStr " at ";
        PStr (py_str_int resolution); PStr "x"; PStr (py_str_int resolution);
        PStr "..."]]) ++ [[PStr "Saved render to: "; PStr output_path]])
    (set_fs (fs w ++ [output_path])
       (set_host_calls (host_calls w ++ [HRender output_path])
          (set_render (set_filepath output_path (render w))
             (set_objects
                (hide_others obj (fun i => mem_id i (scene_objects w)) (objects w))
                (set_calls (calls w ++ [CRender obj resolution output_dir]) w))))).

(** A name that is a single relative path component sequence: not empty,
    no leading and no trailing separator. *)
Definition plain_name (n : string) : Prop :=
  n <> "" /\ startswith_sep n = false /\ endswith_sep n = false.

(** The objects of a collection, in link order; none for a dangling
    reference. *)
Definition coll_objects_at (cs : list Collection) (i : CollId) : list ObjId :=
  match cs !! i with
  | Some c => coll_objects c
  | None => []
  end.

Definition members (w : World) (c : CollRef) : list ObjId :=
  match c with
  | SceneMaster => master_objects w
  | DataColl i => coll_objects_at (collections w) i
  end.

(** [linked w c o]: object [o] is linked to collection [c]. *)
Definition linked (w : World) (c : CollRef) (o : ObjId) : bool :=
  mem_id o (members w c).

(** The world after one new object, with its datablock, has been created
    and linked to the collection [c]. *)
Definition with_new_object (c : CollId) (o : Object) (d : DataBlock) (w : World) : World :=
  set_collections (alter (link_in (length (objects w))) c (collections w))
    (set_objects (objects w ++ [o])
       (set_datablocks (datablocks w ++ [d]) w)).

Definition setup_collection_new : Collection :=
  {| coll_name := "Setup"; coll_objects := []; coll_in_scene := true;
     coll_excluded := false |}.

(** What the rig-building steps leave alone, apart from links. *)
Definition same_outside_links (w w' : World) : Prop :=
  objects w' = objects w /\ calls w' = calls w /\
  blend_filepath w' = blend_filepath w /\
  map coll_name (collections w') = map coll_name (collections w).

Definition below (n : nat) (l : list ObjId) : list ObjId :=
  List.filter (fun o => Nat.ltb o n) l.

(** [rig_step n w w']: going from [w] to [w'] kept the call trace and the
    scene file, kept every collection findable under its name, kept the
    links, names and types of the objects below [n], and put no mesh at
    or above [n]. *)
Definition rig_step (n : nat) (w w' : World) : Prop :=
  calls w' = calls w /\
  blend_filepath w' = blend_filepath w /\
  (forall ref, below n (members w' ref) = below n (members w ref)) /\
  (forall name t, find_collection name w = Some t -> find_collection name w' = Some t) /\
  (forall i c, collections w !! i = Some c ->
     exists c', collections w' !! i = Some c' /\ coll_name c' = coll_name c) /\
  (forall i o, i < n -> objects w !! i = Some o ->
     exists o', objects w' !! i = Some o' /\
                obj_name o' = obj_name o /\ obj_type o' = obj_type o) /\
  ((forall i o, n <= i -> objects w !! i = Some o -> obj_type o <> "MESH") ->
   (forall i o, n <= i -> objects w' !! i = Some o -> obj_type o <> "MESH")) /\
  length (objects w) <= length (objects w').

Definition named_at (w : World) (s : CollId) (name : string) : Prop :=
  exists c, collections w !! s = Some c /\ coll_name c = name.







(** What identifies an object to the loops of [main]: its name and type. *)
Definition obj_sig (o : Object) : string * string := (obj_name o, obj_type o).

Definition same_sigs (l l' : list Object) : Prop :=
  forall i, obj_sig <$> l' !! i = obj_sig <$> l !! i.

(** [keeps w0 w]: since [w0], collections, links, scene file and the name
    and type of every object are unchanged. *)
Definition keeps (w0 w : World) : Prop :=
  collections w = collections w0 /\ master_objects w = master_objects w0 /\
  blend_filepath w = blend_filepath w0 /\ same_sigs (objects w0) (objects w).

Definition keeps_with_calls (w0 : World) (X : list Call) (w : World) : Prop :=
  calls w = X /\ keeps w0 w.

Definition is_mesh (w : World) (i : ObjId) : bool :=
  match objects w !! i with
  | Some o => String.eqb (obj_type o) "MESH"
  | None => false
  end.

Definition name_of (w : World) (i : ObjId) : string :=
  match objects w !! i with
  | Some o => obj_name o
  | None => ""
  end.

(** The mesh objects of collection [t], in the collection's order. *)
Definition target_meshes (w : World) (t : CollId) : list ObjId :=
  List.filter (is_mesh w) (members w (DataColl t)).

Definition icons_dir_of (w : World) : string :=
  path_join (path_dirname (blend_filepath w)) "Icons".

(** The renders of one object: one per resolution, in the order of
    [RESOLUTIONS], into the object's own directory. *)
Definition renders_of (w : World) (obj : ObjId) : list Call :=
  map (fun res => CRender obj res (path_join (icons_dir_of w) (name_of w obj)))
      RESOLUTIONS.




(** The file paths of the renders issued to the host, in order. *)
Definition render_paths (hc : list HostCall) : list string :=
  flat_map (fun c => match c with HRender p => [p] | _ => [] end) hc.

Definition renders_only (X : list string) (w : World) : Prop :=
  render_paths (host_calls w) = X.

(** The output files of one object: one per resolution, in the order of
    [RESOLUTIONS], in the object's directory under the icons folder. *)
Definition output_paths (w : World) (obj : ObjId) : list string :=
  map (fun res =>
         path_join (path_join (icons_dir_of w) (name_of w obj))
                   (py_str_int res ++ ".png"))
      RESOLUTIONS.

(** The render settings of one icon. *)
Definition icon_settings (res : Z) (path : string) : RenderSettings :=
  {| resolution_x := res; resolution_y := res; file_format := "PNG";
     color_mode := "RGBA"; film_transparent := true; filepath := path |}.

Definition settings_are (R : RenderSettings) (w : World) : Prop :=
  render w = R.

(** The render settings a completed run leaves in the scene: those of
    the last icon, or the scene's own when nothing was rendered. *)
Definition settings_left (w : World) (t : CollId) : RenderSettings :=
  match last (target_meshes w t) with
  | Some x =>
      icon_settings 64 (path_join (path_join (icons_dir_of w) (name_of w x)) "64.png")
  | None => render w
  end.



End Specification.

(** * Concrete scenes *)

(** A host whose matrices are the identity, whose operators leave geometry
    alone, and which numbers a name that is taken. *)
Definition example_unique_name (names : list string) (n : string) : string :=
  if existsb (String.eqb n) names then n ++ ".001" else n.

Definition zero_vec : Vec3 := (0, 0, 0)%float.

Definition example_geom (b : Box8) : Geom :=
  {| matrix_world := identity_matrix; bound_box := b;
     location := zero_vec; rotation_euler := zero_vec; scale := (1, 1, 1)%float |}.

(** The box with one corner at the origin and the given extents. *)
Definition box_of (a b c : float) : Box8 :=
  {| c0 := (0, 0, 0)%float; c1 := (0, 0, c)%float;
     c2 := (0, b, c)%float; c3 := (0, b, 0)%float;
     c4 := (a, 0, 0)%float; c5 := (a, 0, c)%float;
     c6 := (a, b, c)%float; c7 := (a, b, 0)%float |}.

Definition example_host : Host.
Proof.
  refine {| mat_vec_mul := fun _ v => v;
            host_op_effect := fun _ g => g;
            fresh_geom := example_geom (box_of 0 0 0);
            unique_name := example_unique_name |}.
  intros names n Hn. unfold example_unique_name. rewrite Hn. reflexivity.
Defined.

Definition example_object (name type : string) (b : Box8) : Object :=
  {| obj_name := name; obj_type := type; obj_data := None;
     hide_render := false; selected := false; geom := example_geom b |}.

Definition example_render : RenderSettings :=
  {| resolution_x := 1920; resolution_y := 1080; file_format := "JPEG";
     color_mode := "RGB"; film_transparent := false; filepath := "/tmp/" |}.

Definition example_world (objs : list Object) (colls : list Collection) : World :=
  {| blend_filepath := "/home/user/models/scene.blend"; mode := "EDIT";
     objects := objs; collections := colls; master_objects := [];
     datablocks := []; scene_camera := None; active_object := None;
     render := example_render; fs := []; stdout := []; host_calls := [];
     calls := [] |}.

Definition in_scene_collection (name : string) (objs : list ObjId) : Collection :=
  {| coll_name := name; coll_objects := objs; coll_in_scene := true;
     coll_excluded := false |}.

(** A cube of 4 x 1 x 2 and an empty, both in "Target". *)
Definition cube : Object := example_object "Cube" "MESH" (box_of 4 1 2).

Definition cube_scene : World :=
  example_world [cube; example_object "Helper" "EMPTY" (box_of 0 0 0)]
                [in_scene_collection "Target" [0; 1]].

(** A mesh without extent in x and y. *)
Definition flat_mesh : Object := example_object "Needle" "MESH" (box_of 0 0 3).

Definition flat_scene : World :=
  example_world [flat_mesh] [in_scene_collection "Target" [0]].


(** A mesh whose name is an absolute path. *)
Definition slash_mesh : Object := example_object "/tmp/x" "MESH" (box_of 4 1 2).

Definition slash_scene : World :=
  example_world [slash_mesh] [in_scene_collection "Target" [0]].


(** * Properties *)

Section Properties.
Context `{Host}.

(** Unfolding of the monad's plumbing and of the world's accessors. *)
Ltac msimpl :=
  cbv beta iota zeta delta
      [bind ret raise gets modify print host_call enter from_option
       modify_render mode_set];
  cbn [world_of negb
       blend_filepath mode objects collections master_objects datablocks
       scene_camera active_object render fs stdout host_calls calls
       set_mode set_objects set_collections set_master_objects set_datablocks
       set_scene_camera set_active_object set_render set_fs set_stdout
       set_host_calls set_calls].

(** Two worlds with the same fields are the same world. *)
Lemma world_ext (w w' : World) :
  blend_filepath w = blend_filepath w' -> mode w = mode w' ->
  objects w = objects w' -> collections w = collections w' ->
  master_objects w = master_objects w' -> datablocks w = datablocks w' ->
  scene_camera w = scene_camera w' -> active_object w = active_object w' ->
  render w = render w' -> fs w = fs w' -> stdout w = stdout w' ->
  host_calls w = host_calls w' -> calls w = calls w' ->
  w = w'.
Proof. destruct w, w'; cbn; intros; subst; reflexivity. Qed.

Lemma Return_ext {A} (a a' : A) (w w' : World) :
  a = a' -> w = w' -> Return a w = Return a' w'.
Proof. intros -> ->. reflexivity. Qed.

Ltac world_eq :=
  apply world_ext;
  cbn [blend_filepath mode objects collections master_objects datablocks
       scene_camera active_object render fs stdout host_calls calls
       set_mode set_objects set_collections set_master_objects set_datablocks
       set_scene_camera set_active_object set_render set_fs set_stdout
       set_host_calls set_calls];
  try reflexivity.

(** One statement at a time: run the head of a sequence on the current
    world and put the resulting world in normal form. *)
Lemma bind_unfold {A B} (m : M A) (k : A -> M B) (w : World) :
  bind m k w
  = match m w with
    | Return a w' => k a w'
    | Raise e w' => Raise e w'
    end.
Proof. reflexivity. Qed.

Ltac mstep :=
  rewrite bind_unfold;
  cbn [ret raise gets modify print host_call enter from_option modify_render
       world_of negb
       blend_filepath mode objects collections master_objects datablocks
       scene_camera active_object render fs stdout host_calls calls
       set_mode set_objects set_collections set_master_objects set_datablocks
       set_scene_camera set_active_object set_render set_fs set_stdout
       set_host_calls set_calls].

(** ** The scale routine *)






(** C5. The YZ and ZX branches are dead: on every input the routine
    behaves as the one that contains the XY branch alone. *)
Theorem scale_only_xy_branch (obj : ObjId) (target_size : float) (w : World) :
  scale_object_to_fit_camera obj target_size w
  = scale_object_to_fit_camera_xy_only obj target_size w.
Proof.
  unfold scale_object_to_fit_camera, scale_object_to_fit_camera_xy_only,
    world_bounding_box.
  change (String.eqb "XY" "XY") with true. cbv iota. reflexivity.
Qed.

(** ** Render settings *)

(** Invariants of the world carry through sequencing and loops. *)
Lemma bind_world_inv {A B} (P : World -> Prop) (m : M A) (k : A -> M B) (w : World) :
  P (world_of (m w)) ->
  (forall a w', P w' -> P (world_of (k a w'))) ->
  P (world_of (bind m k w)).
Proof.
  intros Hm Hk. unfold bind. destruct (m w) as [a w'|e w']; cbn in *; auto.
Qed.

Lemma for_each_world_inv {A} (P : World -> Prop) (xs : list A) (body : A -> M unit) :
  (forall x w, P w -> P (world_of (body x w))) ->
  forall w, P w -> P (world_of (for_each xs body w)).
Proof.
  intros Hbody. induction xs as [|x r IH]; intros w Hw; cbn [for_each].
  - exact Hw.
  - apply bind_world_inv; [apply Hbody; exact Hw|]. intros _ w' Hw'. apply IH, Hw'.
Qed.

Lemma get_object_world (obj : ObjId) (w : World) : world_of (get_object obj w) = w.
Proof. unfold get_object. destruct (objects w !! obj); reflexivity. Qed.



(** ** The missing "Target" collection *)


(** ** Render visibility *)

Lemma set_objects_same (w : World) : set_objects (objects w) w = w.
Proof. destruct w; reflexivity. Qed.

Lemma mem_id_In (i : nat) (l : list nat) : mem_id i l = true <-> In i l.
Proof.
  unfold mem_id. rewrite existsb_exists. split.
  - intros (j & Hj & Heq). apply Nat.eqb_eq in Heq. subst. exact Hj.
  - intros Hi. exists i. split; [exact Hi | apply Nat.eqb_refl].
Qed.

Lemma mem_id_filter_seq (p : nat -> bool) (n i : nat) :
  mem_id i (List.filter p (seq 0 n)) = p i && Nat.ltb i n.
Proof.
  apply eq_true_iff_eq. rewrite mem_id_In, filter_In, in_seq, andb_true_iff, Nat.ltb_lt.
  intuition lia.
Qed.

Lemma hide_others_step (obj x : ObjId) (r : list ObjId) (o : Object) (objs : list Object) :
  objs !! x = Some o ->
  hide_others obj (fun i => mem_id i r)
    (alter (set_hide_render (hide_flag obj x o)) x objs)
  = hide_others obj (fun i => mem_id i (x :: r)) objs.
Proof.
  intros Hx. apply list_eq. intros i. unfold hide_others.
  rewrite !list_lookup_imap. destruct (decide (i = x)) as [->|Hne].
  - rewrite list_lookup_alter_eq, Hx. cbn [fmap option_fmap option_map mem_id existsb].
    rewrite Nat.eqb_refl. cbn [orb]. fold (mem_id x r).
    destruct (mem_id x r); reflexivity.
  - rewrite list_lookup_alter_ne by congruence.
    cbn [mem_id existsb]. apply Nat.eqb_neq in Hne. rewrite Hne. reflexivity.
Qed.

(** The visibility loop of [render_object] (lines 88-92). *)
Lemma hide_loop (obj : ObjId) (l : list ObjId) (w : World) :
  Forall (fun i => i < length (objects w)) l ->
  for_each l (fun other_obj =>
    do other <- get_object other_obj ;
    if negb (Nat.eqb other_obj obj) && negb (String.eqb (obj_type other) "LIGHT")
    then update_object other_obj (set_hide_render true)
    else update_object other_obj (set_hide_render false)) w
  = Return tt (set_objects (hide_others obj (fun i => mem_id i l) (objects w)) w).
Proof.
  revert w. induction l as [|x r IH]; intros w Hl.
  - cbn [for_each ret].
    replace (hide_others obj (fun i => mem_id i []) (objects w)) with (objects w).
    + rewrite set_objects_same. reflexivity.
    + apply list_eq. intros i. unfold hide_others. rewrite list_lookup_imap.
      destruct (objects w !! i); reflexivity.
  - apply Forall_cons in Hl as [Hx Hr].
    destruct (lookup_lt_is_Some_2 _ _ Hx) as [o Ho].
    cbn [for_each]. unfold get_object at 1. msimpl. rewrite Ho.
    assert (Hstep :
      (if negb (Nat.eqb x obj) && negb (String.eqb (obj_type o) "LIGHT")
       then update_object x (set_hide_render true)
       else update_object x (set_hide_render false)) w
      = Return tt (set_objects (alter (set_hide_render (hide_flag obj x o)) x (objects w)) w)).
    { unfold hide_flag. destruct (negb (Nat.eqb x obj) && negb (String.eqb (obj_type o) "LIGHT"));
        reflexivity. }
    rewrite Hstep. rewrite IH.
    + msimpl. rewrite hide_others_step by exact Ho. reflexivity.
    + msimpl. rewrite length_alter. exact Hr.
Qed.

Lemma scene_objects_valid (w : World) :
  Forall (fun i => i < length (objects w)) (scene_objects w).
Proof.
  unfold scene_objects. apply Forall_forall. intros i Hi.
  apply list_elem_of_In, filter_In in Hi as [Hi _]. apply in_seq in Hi. lia.
Qed.

Lemma hide_others_lookup (obj : ObjId) (visited : ObjId -> bool) (objs : list Object)
      (i : ObjId) (o : Object) :
  objs !! i = Some o ->
  hide_others obj visited objs !! i
  = Some (if visited i then set_hide_render (hide_flag obj i o) o else o).
Proof.
  intros Hi. unfold hide_others. rewrite list_lookup_imap, Hi. reflexivity.
Qed.

Lemma render_object_run (obj : ObjId) (resolution : Z) (output_dir : string)
      (w : World) (target : Object) :
  objects w !! obj = Some target ->
  render_object obj resolution output_dir w
  = Return tt (rendered_world obj resolution output_dir target w).
Proof.
  intros Hobj. unfold render_object.
  match goal with |- context [for_each _ ?b] => set (body := b) end.
  msimpl. change (scene_objects (set_calls _ w)) with (scene_objects w).
  subst body. rewrite hide_loop by (msimpl; apply scene_objects_valid).
  unfold get_object, render_write_still. msimpl.
  rewrite (hide_others_lookup _ _ _ _ _ Hobj).
  replace (obj_name (if mem_id obj (scene_objects w)
                     then set_hide_render (hide_flag obj obj target) target
                     else target)) with (obj_name target)
    by (destruct (mem_id obj (scene_objects w)); reflexivity).
  reflexivity.
Qed.

(** C10. [render_object obj] returns (for a live [obj]) and gives every
    scene object its flag: [hide_render] is [True] exactly for the scene
    objects other than [obj] whose type is not 'LIGHT' (cameras, and so
    the active render camera, are not exempt) and [False] for [obj] and
    for every light; objects outside the scene are left as they were. *)
Theorem render_object_visibility (obj : ObjId) (resolution : Z) (output_dir : string)
        (w : World) (target : Object) :
  objects w !! obj = Some target ->
  exists w' : World,
    render_object obj resolution output_dir w = Return tt w' /\
    forall (i : ObjId) (o : Object),
      objects w !! i = Some o ->
      objects w' !! i =
        Some (if in_scene w i
              then set_hide_render
                     (negb (Nat.eqb i obj) && negb (String.eqb (obj_type o) "LIGHT")) o
              else o).
Proof.
  intros Hobj. rewrite (render_object_run _ _ _ _ _ Hobj).
  eexists. split; [reflexivity|]. unfold rendered_world. msimpl.
  intros i o Hi. rewrite (hide_others_lookup _ _ _ _ _ Hi).
  unfold scene_objects. rewrite mem_id_filter_seq.
  apply lookup_lt_Some in Hi. apply Nat.ltb_lt in Hi. rewrite Hi, andb_true_r.
  reflexivity.
Qed.

(** ** Output paths *)

Lemma append_assoc (a b c : string) : ((a ++ b) ++ c = a ++ (b ++ c))%string.
Proof. induction a as [|x a IH]; cbn; [reflexivity | rewrite IH; reflexivity]. Qed.

Lemma append_nonempty_r (a b : string) : b <> "" -> (a ++ b)%string <> "".
Proof. destruct a; cbn; [auto | discriminate]. Qed.

Lemma endswith_sep_append (a b : string) :
  b <> "" -> endswith_sep (a ++ b)%string = endswith_sep b.
Proof.
  intros Hb. induction a as [|x a IH]; [reflexivity|].
  cbn [append endswith_sep]. rewrite IH.
  destruct (a ++ b)%string eqn:E; [|reflexivity].
  exfalso. exact (append_nonempty_r a b Hb E).
Qed.

Lemma path_join_relative (a b : string) :
  startswith_sep b = false ->
  path_join a b
  = (if String.eqb a "" || endswith_sep a then a ++ b else a ++ "/" ++ b)%string.
Proof. intros Hb. unfold path_join. rewrite Hb. reflexivity. Qed.

Lemma startswith_sep_resolution (r : Z) :
  In r RESOLUTIONS -> startswith_sep (py_str_int r ++ ".png")%string = false.
Proof.
  unfold RESOLUTIONS. cbn [In].
  intros [<-|[<-|[<-|[<-|[<-|[]]]]]]; reflexivity.
Qed.

(** The three joins of [main] and [render_object] against one join of the
    whole relative path. *)
Lemma icon_path_joins (base n : string) (r : Z) :
  In r RESOLUTIONS ->
  plain_name n ->
  path_join (path_join (path_join base "Icons") n) (py_str_int r ++ ".png")
  = path_join base ("Icons/" ++ n ++ "/" ++ py_str_int r ++ ".png").
Proof.
  intros Hr (Hne & Hstart & Hend).
  assert (Hicons : path_join base "Icons" <> "" /\
                   endswith_sep (path_join base "Icons") = false /\
                   path_join base ("Icons/" ++ n ++ "/" ++ py_str_int r ++ ".png")
                   = (path_join base "Icons" ++ "/" ++ n ++ "/" ++ py_str_int r ++ ".png")%string).
  { rewrite !path_join_relative by reflexivity.
    destruct (String.eqb base "" || endswith_sep base).
    - split; [apply append_nonempty_r; discriminate|]. split.
      + rewrite endswith_sep_append by discriminate. reflexivity.
      + rewrite append_assoc. reflexivity.
    - split; [apply append_nonempty_r; discriminate|]. split.
      + rewrite endswith_sep_append by discriminate. reflexivity.
      + rewrite !append_assoc. reflexivity. }
  destruct Hicons as (Hi1 & Hi2 & ->).
  set (icons := path_join base "Icons") in *.
  rewrite (path_join_relative icons n Hstart).
  apply String.eqb_neq in Hi1. rewrite Hi1, Hi2. cbn [orb].
  rewrite path_join_relative by (apply startswith_sep_resolution; exact Hr).
  assert (Hdir : (icons ++ "/" ++ n)%string <> "" /\
                 endswith_sep (icons ++ "/" ++ n)%string = false).
  { split.
    - apply append_nonempty_r. discriminate.
    - rewrite endswith_sep_append by discriminate.
      rewrite endswith_sep_append by exact Hne. exact Hend. }
  destruct Hdir as (Hd1 & Hd2). apply String.eqb_neq in Hd1. rewrite Hd1, Hd2.
  cbn [orb]. rewrite !append_assoc. reflexivity.
Qed.

(** C2 (amended). For an object whose name [N] is not empty and neither
    begins nor ends with the separator, and a resolution [R] of
    [RESOLUTIONS], the path [render_object] hands to the renderer, when it
    is called as [main] calls it (output directory: the icons folder
    joined with [N]), is [Icons/N/R.png] under the directory of the scene
    file; it is a function of that directory, [N] and [R] alone. *)
Theorem render_path_under_icons (w : World) (obj : ObjId) (o : Object) (R : Z) :
  objects w !! obj = Some o ->
  plain_name (obj_name o) ->
  In R RESOLUTIONS ->
  let expected :=
    path_join (path_dirname (blend_filepath w))
              ("Icons/" ++ obj_name o ++ "/" ++ py_str_int R ++ ".png") in
  exists (icons_dir : string) (w1 w2 : World),
    create_icons_folder w = Return icons_dir w1 /\
    render_object obj R (path_join icons_dir (obj_name o)) w1 = Return tt w2 /\
    filepath (render w2) = expected /\
    host_calls w2 = host_calls w1 ++ [HRender expected].
Proof.
  intros Hobj Hname HR expected.
  assert (Hicons : exists w1,
    create_icons_folder w
    = Return (path_join (path_dirname (blend_filepath w)) "Icons") w1
    /\ objects w1 = objects w).
  { unfold create_icons_folder, makedirs. msimpl.
    destruct (existsb _ (fs w)); msimpl; eexists; split; reflexivity. }
  destruct Hicons as (w1 & Hrun & Hobjs).
  exists (path_join (path_dirname (blend_filepath w)) "Icons"), w1.
  rewrite <- Hobjs in Hobj. rewrite (render_object_run _ _ _ _ _ Hobj).
  eexists. split; [exact Hrun|]. split; [reflexivity|].
  unfold rendered_world. msimpl. cbn [filepath set_filepath].
  rewrite (icon_path_joins _ _ _ HR Hname). split; reflexivity.
Qed.

(** ** Collections and links *)

Lemma CollRef_eqb_eq (a b : CollRef) : CollRef_eqb a b = true <-> a = b.
Proof.
  destruct a as [|i], b as [|j]; cbn; try (split; congruence).
  rewrite Nat.eqb_eq. split; congruence.
Qed.

Lemma CollRef_eqb_refl (a : CollRef) : CollRef_eqb a a = true.
Proof. apply CollRef_eqb_eq. reflexivity. Qed.

Lemma mem_id_app (i : nat) (l l' : list nat) :
  mem_id i (l ++ l') = mem_id i l || mem_id i l'.
Proof. apply existsb_app. Qed.

Lemma mem_id_remove_id (i obj : nat) (l : list nat) :
  mem_id i (remove_id obj l) = mem_id i l && negb (Nat.eqb i obj).
Proof.
  apply eq_true_iff_eq. unfold remove_id.
  rewrite andb_true_iff, !mem_id_In, filter_In. reflexivity.
Qed.

Lemma lookup_snoc_new {A} (l : list A) (x : A) : (l ++ [x]) !! length l = Some x.
Proof. apply list_lookup_middle. reflexivity. Qed.

Lemma alter_snoc_new {A} (f : A -> A) (l : list A) (x : A) :
  alter f (length l) (l ++ [x]) = l ++ [f x].
Proof.
  replace (length l) with (length l + 0) at 1 by lia.
  rewrite alter_app_r. reflexivity.
Qed.

Lemma coll_objects_at_link (obj : ObjId) (i j : CollId) (cs : list Collection) :
  i < length cs ->
  coll_objects_at (alter (link_in obj) i cs) j
  = coll_objects_at cs j ++ (if Nat.eqb j i then [obj] else []).
Proof.
  intros Hi. unfold coll_objects_at. destruct (Nat.eqb_spec j i) as [->|Hne].
  - rewrite list_lookup_alter_eq.
    destruct (lookup_lt_is_Some_2 _ _ Hi) as [c ->]. reflexivity.
  - rewrite list_lookup_alter_ne by congruence.
    rewrite app_nil_r. reflexivity.
Qed.

Lemma coll_objects_at_unlink (obj : ObjId) (i j : CollId) (cs : list Collection) :
  coll_objects_at (alter (unlink_in obj) i cs) j
  = if Nat.eqb j i then remove_id obj (coll_objects_at cs j) else coll_objects_at cs j.
Proof.
  unfold coll_objects_at. destruct (Nat.eqb_spec j i) as [->|Hne].
  - rewrite list_lookup_alter_eq. destruct (cs !! i); reflexivity.
  - rewrite list_lookup_alter_ne by congruence. reflexivity.
Qed.

Lemma coll_has_linked (w : World) (i : CollId) (obj : ObjId) :
  coll_has w i obj = linked w (DataColl i) obj.
Proof.
  unfold coll_has, linked, members, coll_objects_at.
  destruct (collections w !! i); reflexivity.
Qed.

(** Searching a collection by name. *)
Lemma find_collection_from_Some (k : nat) (n : string) (cs : list Collection) (i : CollId) :
  find_collection_from k n cs = Some i ->
  k <= i /\ exists c, cs !! (i - k) = Some c /\ coll_name c = n.
Proof.
  revert k. induction cs as [|c r IH]; intros k Hf; cbn in Hf; [discriminate|].
  destruct (String.eqb_spec (coll_name c) n) as [Heq|Hne].
  - injection Hf as <-. split; [lia|]. rewrite Nat.sub_diag. exists c. split; auto.
  - apply IH in Hf as (Hle & c' & Hc' & Hn). split; [lia|].
    exists c'. split; [|exact Hn].
    replace (i - k) with (S (i - S k)) by lia. exact Hc'.
Qed.

Lemma find_collection_Some (n : string) (w : World) (i : CollId) :
  find_collection n w = Some i ->
  exists c, collections w !! i = Some c /\ coll_name c = n.
Proof.
  intros Hf. apply find_collection_from_Some in Hf as (_ & c & Hc & Hn).
  rewrite Nat.sub_0_r in Hc. eauto.
Qed.

Lemma find_collection_from_None (k : nat) (n : string) (cs : list Collection) :
  find_collection_from k n cs = None <->
  existsb (String.eqb n) (map coll_name cs) = false.
Proof.
  revert k. induction cs as [|c r IH]; intros k; cbn; [tauto|].
  rewrite (String.eqb_sym n). destruct (String.eqb (coll_name c) n); cbn.
  - split; discriminate.
  - apply IH.
Qed.

Lemma find_collection_from_names (k : nat) (n : string) (cs cs' : list Collection) :
  map coll_name cs = map coll_name cs' ->
  find_collection_from k n cs = find_collection_from k n cs'.
Proof.
  revert k cs'. induction cs as [|c r IH]; intros k [|c' r'] Hm; cbn in *;
    try discriminate; [reflexivity|].
  injection Hm as -> Hr. destruct (String.eqb (coll_name c') n); [reflexivity|].
  apply IH, Hr.
Qed.

Lemma find_collection_from_app_l (k : nat) (n : string) (cs cs' : list Collection)
      (i : CollId) :
  find_collection_from k n cs = Some i ->
  find_collection_from k n (cs ++ cs') = Some i.
Proof.
  revert k. induction cs as [|c r IH]; intros k Hf; cbn in *; [discriminate|].
  destruct (String.eqb (coll_name c) n); [exact Hf | apply IH, Hf].
Qed.

Lemma find_collection_from_snoc (k : nat) (n : string) (cs : list Collection)
      (c : Collection) :
  find_collection_from k n cs = None ->
  coll_name c = n ->
  find_collection_from k n (cs ++ [c]) = Some (k + length cs).
Proof.
  revert k. induction cs as [|c0 r IH]; intros k Hf Hn; cbn in *.
  - rewrite Hn, String.eqb_refl. f_equal. lia.
  - destruct (String.eqb (coll_name c0) n); [discriminate|].
    rewrite IH by assumption. f_equal. lia.
Qed.

Lemma map_alter_same {A B} (g : A -> B) (f : A -> A) (i : nat) (l : list A) :
  (forall x, g (f x) = g x) -> map g (alter f i l) = map g l.
Proof.
  intros Hg. revert i. induction l as [|x r IH]; intros [|i]; cbn; try reflexivity.
  - rewrite Hg. reflexivity.
  - f_equal. apply IH.
Qed.

(** ** Building the rig *)

Lemma create_setup_collection_found (w : World) (s : CollId) :
  find_collection "Setup" w = Some s ->
  create_setup_collection w
  = Return (DataColl s)
      (set_stdout (stdout w ++ [[PStr "'Setup' collection already exists."]]) w).
Proof.
  intros Hf. unfold create_setup_collection, collection_exists, collection_by_name.
  msimpl. rewrite Hf. msimpl. rewrite Hf. reflexivity.
Qed.

Lemma create_setup_collection_fresh (w : World) :
  find_collection "Setup" w = None ->
  create_setup_collection w
  = Return (DataColl (length (collections w)))
      (set_stdout (stdout w ++ [[PStr "Created 'Setup' collection."]])
         (set_collections (collections w ++ [setup_collection_new]) w)).
Proof.
  intros Hf. unfold create_setup_collection, collection_exists, new_collection,
    link_child_to_scene.
  msimpl. rewrite Hf. msimpl. rewrite alter_snoc_new.
  rewrite unique_name_free by (apply (find_collection_from_None 0), Hf).
  reflexivity.
Qed.

Lemma add_camera_to_collection_run (s : CollId) (w : World) :
  exists (o : Object) (d : DataBlock),
    obj_type o = "CAMERA" /\
    add_camera_to_collection (DataColl s) w
    = Return (length (objects w))
        (with_new_object s o d (set_stdout (stdout w ++ [[PStr "Adding camera..."]]) w)).
Proof.
  unfold add_camera_to_collection, new_camera_data, new_object, link_object,
    update_object, with_new_object.
  msimpl. rewrite lookup_snoc_new, !alter_snoc_new.
  eexists. eexists. split; [|apply Return_ext; [reflexivity | world_eq]]. reflexivity.
Qed.

Lemma add_3_point_lighting_skip (c : CollRef) (w : World) :
  existsb (is_light w) (view_layer_objects w) = true ->
  add_3_point_lighting_to_collection c w
  = Return []
      (set_stdout
         (stdout w ++ [[PStr "Lights already exist in the scene. Skipping light setup."]]) w).
Proof.
  intros Hl. unfold add_3_point_lighting_to_collection, lights_exist.
  msimpl. rewrite Hl. reflexivity.
Qed.

Lemma add_3_point_lighting_run (s : CollId) (w : World) :
  existsb (is_light w) (view_layer_objects w) = false ->
  exists (k f b : Object) (dk df db : DataBlock),
    (obj_type k = "LIGHT" /\ obj_type f = "LIGHT" /\ obj_type b = "LIGHT") /\
    add_3_point_lighting_to_collection (DataColl s) w
    = Return [length (objects w); length (objects w) + 1; length (objects w) + 2]
        (with_new_object s b db
           (with_new_object s f df
              (with_new_object s k dk
                 (set_stdout (stdout w ++ [[PStr "Adding 3-point lighting..."]]) w)))).
Proof.
  intros Hl. unfold add_3_point_lighting_to_collection, lights_exist.
  mstep. rewrite Hl.
  unfold new_light_data, set_light_energy, new_object, link_object, update_object.
  repeat (mstep; rewrite ?lookup_snoc_new, ?alter_snoc_new;
          cbn [fmap option_fmap option_map set_energy object_type_of_data]).
  cbn [ret]. rewrite !length_app. cbn [length].
  do 6 eexists. split; [|apply Return_ext; [|unfold with_new_object; world_eq]].
  - repeat split; reflexivity.
  - rewrite <- !Nat.add_assoc. reflexivity.
  - rewrite !length_app. cbn [length]. rewrite <- !Nat.add_assoc. reflexivity.
Qed.

(** ** Unlinking the rig from other collections *)

Lemma same_outside_links_refl (w : World) : same_outside_links w w.
Proof. repeat split. Qed.

Lemma same_outside_links_trans (w1 w2 w3 : World) :
  same_outside_links w1 w2 -> same_outside_links w2 w3 -> same_outside_links w1 w3.
Proof.
  intros (A1 & A2 & A3 & A4) (B1 & B2 & B3 & B4).
  repeat split; congruence.
Qed.

Lemma remove_id_absent (obj : ObjId) (l : list ObjId) :
  mem_id obj l = false -> remove_id obj l = l.
Proof.
  induction l as [|x r IH]; cbn [mem_id existsb remove_id List.filter]; [reflexivity|].
  fold (mem_id obj r). fold (remove_id obj r).
  rewrite Nat.eqb_sym. destruct (Nat.eqb x obj); cbn [orb negb]; [discriminate|].
  intros Hr. rewrite IH by exact Hr. reflexivity.
Qed.

Lemma remove_id_idem (obj : ObjId) (l : list ObjId) :
  remove_id obj (remove_id obj l) = remove_id obj l.
Proof.
  apply remove_id_absent. rewrite mem_id_remove_id, Nat.eqb_refl.
  apply andb_false_r.
Qed.

Lemma members_unlink (c ref : CollRef) (obj : ObjId) (w : World) :
  members (world_of (unlink_object c obj w)) ref
  = if CollRef_eqb ref c then remove_id obj (members w ref) else members w ref.
Proof.
  destruct c as [|i], ref as [|j]; cbn [unlink_object CollRef_eqb];
    unfold members; msimpl; try reflexivity.
  apply coll_objects_at_unlink.
Qed.

Lemma unlink_object_frame (c : CollRef) (obj : ObjId) (w : World) :
  unlink_object c obj w = Return tt (world_of (unlink_object c obj w)) /\
  same_outside_links w (world_of (unlink_object c obj w)) /\
  stdout (world_of (unlink_object c obj w)) = stdout w.
Proof.
  destruct c as [|i]; cbn [unlink_object]; msimpl; repeat split.
  apply map_alter_same. reflexivity.
Qed.

(** Every collection an object is linked to is among its users. *)
Lemma users_collection_complete (w : World) (obj : ObjId) (ref : CollRef) :
  linked w ref obj = true ->
  existsb (CollRef_eqb ref) (users_collection w obj) = true.
Proof.
  unfold linked, users_collection. intros Hl. rewrite existsb_app.
  destruct ref as [|i]; cbn [members] in Hl.
  - rewrite Hl. reflexivity.
  - apply orb_true_iff. right. apply existsb_exists. exists (DataColl i).
    split; [|apply CollRef_eqb_refl].
    apply in_map, filter_In. split.
    + apply in_seq. unfold coll_objects_at in Hl.
      destruct (collections w !! i) eqn:E; [|discriminate].
      apply lookup_lt_Some in E. lia.
    + rewrite coll_has_linked. exact Hl.
Qed.

(** The inner loop of [ensure_unique_in_collection] (lines 206-208). *)
Lemma unlink_loop (c : CollRef) (obj : ObjId) (users : list CollRef) (w : World) :
  exists w' : World,
    for_each users (fun coll =>
      if negb (CollRef_eqb coll c) then unlink_object coll obj else ret tt) w
    = Return tt w' /\
    (forall ref,
       members w' ref
       = if negb (CollRef_eqb ref c) && existsb (CollRef_eqb ref) users
         then remove_id obj (members w ref) else members w ref) /\
    same_outside_links w w' /\ stdout w' = stdout w.
Proof.
  revert w. induction users as [|u r IH]; intros w.
  - exists w. cbn [for_each existsb]. split; [reflexivity|]. split.
    + intros ref. rewrite andb_false_r. reflexivity.
    + split; [apply same_outside_links_refl | reflexivity].
  - cbn [for_each]. unfold bind at 1.
    destruct (CollRef_eqb u c) eqn:Euc; cbn [negb].
    + cbn [ret]. destruct (IH w) as (w' & Hrun & Hm & Hf). exists w'.
      split; [exact Hrun|]. split; [|exact Hf].
      intros ref. rewrite Hm. cbn [existsb].
      destruct (CollRef_eqb ref u) eqn:Eru; [|reflexivity].
      apply CollRef_eqb_eq in Eru. subst u. rewrite Euc. reflexivity.
    + destruct (unlink_object_frame u obj w) as (Hrun1 & Hf1 & Hs1).
      rewrite Hrun1.
      destruct (IH (world_of (unlink_object u obj w))) as (w' & Hrun & Hm & Hf & Hs).
      exists w'. split; [exact Hrun|]. split.
      * intros ref. rewrite Hm, members_unlink. cbn [existsb].
        destruct (CollRef_eqb ref u) eqn:Eru.
        -- apply CollRef_eqb_eq in Eru. subst u. rewrite Euc. cbn [negb andb orb].
           destruct (existsb (CollRef_eqb ref) r);
             [apply remove_id_idem | reflexivity].
        -- cbn [orb]. reflexivity.
      * split; [eapply same_outside_links_trans; eassumption | congruence].
Qed.

Lemma filter_not_in_cons (obj : ObjId) (rest l : list ObjId) :
  List.filter (fun o => negb (mem_id o rest)) (remove_id obj l)
  = List.filter (fun o => negb (mem_id o (obj :: rest))) l.
Proof.
  induction l as [|x r IH]; cbn [remove_id List.filter]; [reflexivity|].
  cbn [mem_id existsb]. fold (mem_id x rest). fold (remove_id obj r).
  destruct (Nat.eqb x obj); cbn [negb orb List.filter].
  - exact IH.
  - fold (mem_id x rest). destruct (mem_id x rest); cbn [negb]; rewrite IH; reflexivity.
Qed.

Lemma filter_all (l : list ObjId) : List.filter (fun _ => true) l = l.
Proof. induction l as [|x r IH]; cbn; congruence. Qed.

(** [ensure_unique_in_collection c objs] always returns; afterwards the
    objects of [objs] are gone from every collection but [c], and no
    other link has changed. *)
Lemma ensure_unique_in_collection_run (c : CollRef) (objs : list ObjId) (w : World) :
  exists w' : World,
    ensure_unique_in_collection c objs w = Return tt w' /\
    (forall ref,
       members w' ref
       = if CollRef_eqb ref c then members w ref
         else List.filter (fun o => negb (mem_id o objs)) (members w ref)) /\
    same_outside_links w w'.
Proof.
  unfold ensure_unique_in_collection.
  assert (Hloop : forall objs w, exists w' : World,
    for_each objs (fun obj =>
      do users <- gets (fun w => users_collection w obj) ;
      for_each users (fun coll =>
        if negb (CollRef_eqb coll c) then unlink_object coll obj else ret tt)) w
    = Return tt w' /\
    (forall ref,
       members w' ref
       = if CollRef_eqb ref c then members w ref
         else List.filter (fun o => negb (mem_id o objs)) (members w ref)) /\
    same_outside_links w w').
  { clear objs w. induction objs as [|obj rest IH]; intros w.
    - exists w. cbn [for_each ret]. split; [reflexivity|]. split.
      + intros ref. cbn [mem_id existsb negb]. rewrite filter_all.
        destruct (CollRef_eqb ref c); reflexivity.
      + apply same_outside_links_refl.
    - cbn [for_each]. unfold bind at 1. unfold bind at 1. unfold gets at 1.
      destruct (unlink_loop c obj (users_collection w obj) w)
        as (w1 & Hrun1 & Hm1 & Hf1 & _).
      rewrite Hrun1. destruct (IH w1) as (w' & Hrun & Hm & Hf).
      exists w'. split; [exact Hrun|]. split.
      + intros ref. rewrite Hm, Hm1.
        destruct (CollRef_eqb ref c) eqn:Erc; cbn [negb andb]; [reflexivity|].
        rewrite <- filter_not_in_cons.
        destruct (existsb (CollRef_eqb ref) (users_collection w obj)) eqn:Eu;
          [reflexivity|].
        rewrite (remove_id_absent obj (members w ref)); [reflexivity|].
        destruct (mem_id obj (members w ref)) eqn:El; [|reflexivity].
        apply users_collection_complete in El. congruence.
      + eapply same_outside_links_trans; eassumption. }
  destruct (Hloop objs w) as (w1 & Hrun & Hm & Hf).
  unfold bind at 1. rewrite Hrun. msimpl. eexists. split; [reflexivity|]. split.
  - intros ref. rewrite <- Hm. unfold members. msimpl. reflexivity.
  - destruct Hf as (F1 & F2 & F3 & F4). repeat split; msimpl; assumption.
Qed.

(** ** What the setup phase preserves *)

Lemma rig_step_trans (n : nat) (w1 w2 w3 : World) :
  rig_step n w1 w2 -> rig_step n w2 w3 -> rig_step n w1 w3.
Proof.
  intros (A1 & A2 & A3 & A4 & A5 & A6 & A7 & A8) (B1 & B2 & B3 & B4 & B5 & B6 & B7 & B8).
  split; [congruence|]. split; [congruence|].
  split; [intros ref; rewrite B3; apply A3|].
  split; [intros name t Hf; apply B4, A4, Hf|].
  split.
  { intros i c Hc. destruct (A5 i c Hc) as (c' & Hc' & Hn).
    destruct (B5 i c' Hc') as (c'' & Hc'' & Hn'). exists c''. split; congruence. }
  split.
  { intros i o Hi Ho. destruct (A6 i o Hi Ho) as (o' & Ho' & Hn & Ht).
    destruct (B6 i o' Hi Ho') as (o'' & Ho'' & Hn' & Ht').
    exists o''. repeat split; congruence. }
  split; [intros Hold; apply B7, A7, Hold | lia].
Qed.

(** Steps that touch neither objects nor collections nor the trace. *)
Lemma rig_step_same (n : nat) (w w' : World) :
  calls w' = calls w ->
  blend_filepath w' = blend_filepath w ->
  objects w' = objects w ->
  collections w' = collections w ->
  master_objects w' = master_objects w ->
  rig_step n w w'.
Proof.
  intros Hc Hb Ho Hcs Hm. unfold rig_step, members, find_collection.
  rewrite Hc, Hb, Ho, Hcs, Hm. repeat split; eauto.
Qed.

Lemma below_app (n : nat) (l l' : list ObjId) :
  below n (l ++ l') = below n l ++ below n l'.
Proof. unfold below. apply List.filter_app. Qed.

Lemma below_cons (n x : nat) (l : list ObjId) :
  below n (x :: l) = if Nat.ltb x n then x :: below n l else below n l.
Proof. reflexivity. Qed.

Lemma below_above (n : nat) (l : list ObjId) :
  Forall (fun o => n <= o) l -> below n l = [].
Proof.
  induction 1 as [|x r Hx _ IH]; [reflexivity|].
  rewrite below_cons. apply Nat.ltb_ge in Hx. rewrite Hx. exact IH.
Qed.

Lemma below_filter_not_in (n : nat) (objs l : list ObjId) :
  Forall (fun o => n <= o) objs ->
  below n (List.filter (fun o => negb (mem_id o objs)) l) = below n l.
Proof.
  intros Hobjs. induction l as [|x r IH]; [reflexivity|].
  cbn [List.filter]. rewrite (below_cons n x r).
  destruct (mem_id x objs) eqn:Ex; cbn [negb].
  - apply mem_id_In in Ex. rewrite Forall_forall in Hobjs.
    apply list_elem_of_In, Hobjs in Ex.
    apply Nat.ltb_ge in Ex. rewrite Ex. exact IH.
  - rewrite below_cons. destruct (Nat.ltb x n); [f_equal|]; exact IH.
Qed.

Lemma lookup_alter_Some {A} (f : A -> A) (i j : nat) (l : list A) (x : A) :
  l !! j = Some x ->
  alter f i l !! j = Some (if Nat.eqb j i then f x else x).
Proof.
  intros Hx. destruct (Nat.eqb_spec j i) as [->|Hne].
  - rewrite list_lookup_alter_eq, Hx. reflexivity.
  - rewrite list_lookup_alter_ne by congruence. exact Hx.
Qed.

(** The fresh "Setup" collection. *)
Lemma rig_step_new_collection (n : nat) (w w' : World) (c : Collection) :
  coll_objects c = [] ->
  calls w' = calls w ->
  blend_filepath w' = blend_filepath w ->
  objects w' = objects w ->
  collections w' = collections w ++ [c] ->
  master_objects w' = master_objects w ->
  rig_step n w w'.
Proof.
  intros Hempty Hc Hb Ho Hcs Hm. unfold rig_step, find_collection.
  rewrite Hc, Hb, Ho, Hcs. repeat split; eauto.
  - intros [|i]; cbn [members]; [rewrite Hm; reflexivity|].
    rewrite Hcs. unfold coll_objects_at.
    destruct (lt_eq_lt_dec i (length (collections w))) as [[Hlt|Heq]|Hgt].
    + rewrite lookup_app_l by exact Hlt. reflexivity.
    + subst i. rewrite lookup_snoc_new, Hempty.
      rewrite (lookup_ge_None_2 (collections w)) by lia. reflexivity.
    + rewrite !lookup_ge_None_2; [reflexivity | lia | rewrite length_app; cbn; lia].
  - intros name t. apply find_collection_from_app_l.
  - intros i c0 Hc0. exists c0. split; [|reflexivity].
    apply lookup_app_l_Some. exact Hc0.
Qed.

(** One more object, not a mesh, linked to a live collection. *)
Lemma rig_step_new_object (n : nat) (s : CollId) (o : Object) (d : DataBlock) (w : World) :
  n <= length (objects w) ->
  obj_type o <> "MESH" ->
  rig_step n w (with_new_object s o d w).
Proof.
  intros Hn Ho. unfold rig_step, with_new_object, find_collection. msimpl.
  repeat split.
  - intros [|i]; unfold members; msimpl; [reflexivity|].
    destruct (lt_dec s (length (collections w))) as [Hs|Hs].
    + rewrite coll_objects_at_link by exact Hs. rewrite below_app.
      destruct (Nat.eqb i s); [|rewrite app_nil_r; reflexivity].
      rewrite (below_above n [length (objects w)]) by (repeat constructor; exact Hn).
      rewrite app_nil_r. reflexivity.
    + unfold coll_objects_at. rewrite list_lookup_alter.
      destruct (decide (s = i)) as [->|_]; [|reflexivity].
      rewrite (lookup_ge_None_2 (collections w)) by lia. reflexivity.
  - intros name t Hf. rewrite <- Hf. apply find_collection_from_names.
    apply map_alter_same. reflexivity.
  - intros i c Hc. rewrite (lookup_alter_Some _ _ _ _ _ Hc).
    eexists. split; [reflexivity|]. destruct (Nat.eqb i s); reflexivity.
  - intros i o0 Hi Ho0. exists o0. split; [|split; reflexivity].
    apply lookup_app_l_Some. exact Ho0.
  - intros Hold i o0 Hi Ho0.
    destruct (lt_eq_lt_dec i (length (objects w))) as [[Hlt|Heq]|Hgt].
    + rewrite lookup_app_l in Ho0 by exact Hlt. eapply Hold; eassumption.
    + subst i. rewrite lookup_snoc_new in Ho0. injection Ho0 as <-. exact Ho.
    + rewrite lookup_ge_None_2 in Ho0 by (rewrite length_app; cbn; lia). discriminate.
  - rewrite length_app. lia.
Qed.

Lemma members_with_new_object (s : CollId) (o : Object) (d : DataBlock) (w : World)
      (ref : CollRef) :
  s < length (collections w) ->
  members (with_new_object s o d w) ref
  = members w ref ++ (if CollRef_eqb ref (DataColl s) then [length (objects w)] else []).
Proof.
  intros Hs. destruct ref as [|i]; unfold members, with_new_object; msimpl.
  - cbn [CollRef_eqb]. rewrite app_nil_r. reflexivity.
  - cbn [CollRef_eqb]. apply coll_objects_at_link. exact Hs.
Qed.

(** [view_layer.update()] re-evaluates geometry only. *)
Lemma rig_step_view_layer_update (n : nat) (w : World) :
  rig_step n w (world_of (view_layer_update w)).
Proof.
  unfold view_layer_update, rig_step, members, find_collection. msimpl.
  repeat split; eauto.
  - intros i o Hi Ho. rewrite list_lookup_imap, Ho. cbn [fmap option_fmap option_map].
    eexists. split; [reflexivity|].
    match goal with |- context [if ?b then _ else _] => destruct b end;
      split; reflexivity.
  - intros Hold i o Hi Ho. rewrite list_lookup_imap in Ho.
    destruct (objects w !! i) as [o0|] eqn:E; [|discriminate].
    cbn [fmap option_fmap option_map] in Ho. injection Ho as <-.
    specialize (Hold i o0 Hi E).
    match goal with |- context [if ?b then _ else _] => destruct b end; exact Hold.
  - rewrite length_imap. lia.
Qed.

Lemma rig_step_ensure_unique (n : nat) (c : CollRef) (objs : list ObjId) (w w' : World) :
  Forall (fun o => n <= o) objs ->
  (forall ref,
     members w' ref
     = if CollRef_eqb ref c then members w ref
       else List.filter (fun o => negb (mem_id o objs)) (members w ref)) ->
  same_outside_links w w' ->
  (forall i cl, collections w !! i = Some cl ->
     exists cl', collections w' !! i = Some cl' /\ coll_name cl' = coll_name cl) ->
  rig_step n w w'.
Proof.
  intros Hobjs Hm (F1 & F2 & F3 & F4) Hcs. unfold rig_step.
  rewrite F1, F2, F3. repeat split; eauto.
  - intros ref. rewrite Hm. destruct (CollRef_eqb ref c); [reflexivity|].
    apply below_filter_not_in. exact Hobjs.
  - intros name t Hf. rewrite <- Hf. unfold find_collection.
    apply find_collection_from_names. exact F4.
Qed.

(** ** The setup phase of [main] *)

Lemma named_at_valid (w : World) (s : CollId) (name : string) :
  named_at w s name -> s < length (collections w).
Proof. intros (c & Hc & _). eapply lookup_lt_Some, Hc. Qed.

Lemma rig_step_named_at (n : nat) (w w' : World) (s : CollId) (name : string) :
  rig_step n w w' -> named_at w s name -> named_at w' s name.
Proof.
  intros (_ & _ & _ & _ & R5 & _) (c & Hc & Hn).
  destruct (R5 s c Hc) as (c' & Hc' & Hn'). exists c'. split; congruence.
Qed.

Lemma list_lookup_map {A B} (f : A -> B) (l : list A) (i : nat) :
  map f l !! i = f <$> l !! i.
Proof.
  revert i. induction l as [|x r IH]; intros [|i]; cbn; try reflexivity. apply IH.
Qed.

Lemma same_names_lookup (cs cs' : list Collection) :
  map coll_name cs' = map coll_name cs ->
  forall i c, cs !! i = Some c ->
    exists c', cs' !! i = Some c' /\ coll_name c' = coll_name c.
Proof.
  intros Hn i c Hc.
  assert (Hi : map coll_name cs' !! i = Some (coll_name c)).
  { rewrite Hn, list_lookup_map, Hc. reflexivity. }
  rewrite list_lookup_map in Hi. destruct (cs' !! i) as [c'|]; [|discriminate].
  exists c'. split; [reflexivity|]. cbn in Hi. congruence.
Qed.

Lemma create_setup_collection_spec (w : World) :
  exists (s : CollId) (w1 : World),
    create_setup_collection w = Return (DataColl s) w1 /\
    named_at w1 s "Setup" /\
    find_collection "Setup" w1 = Some s /\
    objects w1 = objects w /\
    master_objects w1 = master_objects w /\
    (forall n, rig_step n w w1).
Proof.
  destruct (find_collection "Setup" w) as [s|] eqn:Hf.
  - exists s. eexists. split; [apply create_setup_collection_found, Hf|].
    split; [apply find_collection_Some in Hf; exact Hf|].
    split; [exact Hf|]. split; [reflexivity|]. split; [reflexivity|].
    intros n. apply rig_step_same; reflexivity.
  - exists (length (collections w)). eexists.
    split; [apply create_setup_collection_fresh, Hf|]. msimpl.
    split; [exists setup_collection_new; split; [apply lookup_snoc_new | reflexivity]|].
    split; [apply (find_collection_from_snoc 0); [exact Hf | reflexivity]|].
    split; [reflexivity|]. split; [reflexivity|].
    intros n. eapply rig_step_new_collection with (c := setup_collection_new); reflexivity.
Qed.

Lemma mem_id_filter_not_in (o : ObjId) (objs l : list ObjId) :
  mem_id o objs = true ->
  mem_id o (List.filter (fun x => negb (mem_id x objs)) l) = false.
Proof.
  intros Ho. destruct (mem_id o (List.filter _ l)) eqn:E; [|reflexivity].
  apply mem_id_In, filter_In in E as [_ E]. rewrite Ho in E. discriminate.
Qed.

(** The lights step, in both of its branches. *)
Lemma add_3_point_lighting_spec (s : CollId) (w : World) :
  s < length (collections w) ->
  exists (lights : list ObjId) (w' : World),
    add_3_point_lighting_to_collection (DataColl s) w = Return lights w' /\
    Forall (fun o => length (objects w) <= o) lights /\
    (forall ref,
       members w' ref
       = members w ref ++ (if CollRef_eqb ref (DataColl s) then lights else [])) /\
    (forall n, n <= length (objects w) -> rig_step n w w').
Proof.
  intros Hs. destruct (existsb (is_light w) (view_layer_objects w)) eqn:Hl.
  - exists []. eexists. split; [apply add_3_point_lighting_skip, Hl|].
    split; [constructor|]. split.
    + intros ref. unfold members. msimpl.
      destruct (CollRef_eqb ref (DataColl s)); rewrite app_nil_r; reflexivity.
    + intros n _. apply rig_step_same; reflexivity.
  - destruct (add_3_point_lighting_run s w Hl)
      as (k & f & b & dk & df & db & (Tk & Tf & Tb) & Hrun).
    eexists. eexists. split; [exact Hrun|].
    set (w0 := set_stdout (stdout w ++ [[PStr "Adding 3-point lighting..."]]) w) in *.
    set (w1 := with_new_object s k dk w0) in *.
    set (w2 := with_new_object s f df w1) in *.
    assert (L0 : length (objects w0) = length (objects w)) by reflexivity.
    assert (L1 : length (objects w1) = length (objects w) + 1)
      by (unfold w1, with_new_object; msimpl; rewrite length_app; reflexivity).
    assert (L2 : length (objects w2) = length (objects w) + 2)
      by (unfold w2, with_new_object; msimpl; rewrite length_app, L1; cbn; lia).
    assert (C0 : length (collections w0) = length (collections w)) by reflexivity.
    assert (C1 : length (collections w1) = length (collections w))
      by (unfold w1, with_new_object; msimpl; rewrite length_alter; reflexivity).
    assert (C2 : length (collections w2) = length (collections w))
      by (unfold w2, with_new_object; msimpl; rewrite length_alter; exact C1).
    split; [repeat constructor; lia|]. split.
    + intros ref.
      rewrite (members_with_new_object s b db w2) by lia.
      unfold w2 at 1. rewrite (members_with_new_object s f df w1) by lia.
      unfold w1 at 1. rewrite (members_with_new_object s k dk w0) by lia.
      rewrite L0, L1, L2. replace (members w0 ref) with (members w ref) by reflexivity.
      destruct (CollRef_eqb ref (DataColl s)); rewrite <- ?app_assoc; reflexivity.
    + intros n Hn.
      eapply rig_step_trans; [apply rig_step_same with (w' := w0); reflexivity|].
      eapply rig_step_trans;
        [apply (rig_step_new_object n s k dk w0); [rewrite L0; lia | rewrite Tk; discriminate]|].
      eapply rig_step_trans;
        [apply (rig_step_new_object n s f df w1); [rewrite L1; lia | rewrite Tf; discriminate]|].
      apply (rig_step_new_object n s b db w2); [rewrite L2; lia | rewrite Tb; discriminate].
Qed.

Lemma main_setup_run (w : World) :
  exists (s : CollId) (cam : ObjId) (lights : list ObjId) (w' : World),
    main_setup w = Return (DataColl s, cam, lights) w' /\
    named_at w' s "Setup" /\
    Forall (fun o => length (objects w) <= o) (cam :: lights) /\
    (forall o ref, In o (cam :: lights) ->
       linked w' ref o = CollRef_eqb ref (DataColl s)) /\
    rig_step (length (objects w)) w w'.
Proof.
  set (n := length (objects w)).
  destruct (create_setup_collection_spec w) as (s & w1 & Hrun1 & Hnamed1 & _ & Hobjs1 & _ & Hstep1).
  destruct (add_camera_to_collection_run s w1) as (co & cd & Tc & Hrun2).
  set (w2 := with_new_object s co cd
               (set_stdout (stdout w1 ++ [[PStr "Adding camera..."]]) w1)) in *.
  assert (Hs1 : s < length (collections w1)) by (eapply named_at_valid, Hnamed1).
  assert (Hstep2 : rig_step n w1 w2).
  { eapply rig_step_trans;
      [apply (rig_step_same n w1
                (set_stdout (stdout w1 ++ [[PStr "Adding camera..."]]) w1));
       reflexivity|].
    apply rig_step_new_object; [msimpl; rewrite Hobjs1; reflexivity | rewrite Tc; discriminate]. }
  assert (Hmem2 : forall ref, members w2 ref
            = members w1 ref ++ (if CollRef_eqb ref (DataColl s) then [n] else [])).
  { intros ref. unfold w2. rewrite members_with_new_object by exact Hs1.
    msimpl. rewrite Hobjs1. reflexivity. }
  assert (Hlen2 : length (objects w2) = n + 1).
  { unfold w2, with_new_object. msimpl. rewrite length_app, Hobjs1. reflexivity. }
  assert (Hs2 : s < length (collections w2)).
  { eapply named_at_valid, rig_step_named_at; eassumption. }
  destruct (add_3_point_lighting_spec s w2 Hs2) as (lights & w3 & Hrun3 & Habove & Hmem3 & Hstep3).
  set (w4 := world_of (view_layer_update (set_scene_camera (Some n) w3))).
  assert (Hstep4 : rig_step n w3 w4).
  { eapply rig_step_trans; [|apply rig_step_view_layer_update].
    apply rig_step_same; reflexivity. }
  assert (Hmem4 : forall ref, members w4 ref = members w3 ref).
  { intros ref. unfold w4, view_layer_update, members. msimpl. reflexivity. }
  destruct (ensure_unique_in_collection_run (DataColl s) ([n] ++ lights) w4)
    as (w5 & Hrun5 & Hmem5 & Hframe5).
  assert (Hobjs : Forall (fun o => n <= o) (n :: lights)).
  { constructor; [lia|]. eapply Forall_impl; [exact Habove|].
    intros x Hx. cbv beta in Hx. lia. }
  assert (Hstep5 : rig_step n w4 w5).
  { eapply rig_step_ensure_unique; [exact Hobjs | exact Hmem5 | exact Hframe5 |].
    apply same_names_lookup. apply Hframe5. }
  exists s, n, lights. eexists. split.
  { unfold main_setup. msimpl. rewrite Hrun1. rewrite Hobjs1 in Hrun2.
    fold n in Hrun2. rewrite Hrun2, Hrun3.
    change (view_layer_update _) with (view_layer_update (set_scene_camera (Some n) w3)).
    replace (view_layer_update (set_scene_camera (Some n) w3))
      with (Return tt w4) by reflexivity.
    cbn [app] in Hrun5. cbn [app]. rewrite Hrun5. reflexivity. }
  assert (Hstep : rig_step n w w5).
  { eapply rig_step_trans; [apply Hstep1|].
    eapply rig_step_trans; [exact Hstep2|].
    eapply rig_step_trans; [apply Hstep3; lia|].
    eapply rig_step_trans; [exact Hstep4 | exact Hstep5]. }
  split; [|split; [exact Hobjs|split]].
  - eapply (rig_step_named_at n w1); [|exact Hnamed1].
    eapply rig_step_trans; [exact Hstep2|].
    eapply rig_step_trans; [apply Hstep3; lia|].
    eapply rig_step_trans; [exact Hstep4|].
    eapply rig_step_trans; [exact Hstep5|]. apply rig_step_same; reflexivity.
  - intros o ref Ho. unfold linked.
    replace (members _ ref) with (members w5 ref) by reflexivity.
    rewrite Hmem5. change ([n] ++ lights) with (n :: lights).
    assert (Hin : mem_id o (n :: lights) = true) by (apply mem_id_In; exact Ho).
    destruct (CollRef_eqb ref (DataColl s)) eqn:Eref.
    + rewrite Hmem4, Hmem3, Hmem2, Eref. rewrite <- app_assoc, mem_id_app.
      change ([n] ++ lights) with (n :: lights). rewrite Hin. apply orb_true_r.
    + apply mem_id_filter_not_in. exact Hin.
  - eapply rig_step_trans; [exact Hstep|]. apply rig_step_same; reflexivity.
Qed.

(** C8. The setup phase of [main] always completes, and then the camera
    and every light it created are linked to the collection named "Setup"
    and to no other collection, the scene's master collection included. *)
Theorem rig_isolated_in_setup (w : World) :
  exists (s : CollId) (camera_object : ObjId) (lights : list ObjId) (w' : World),
    main_setup w = Return (DataColl s, camera_object, lights) w' /\
    (exists c, collections w' !! s = Some c /\ coll_name c = "Setup") /\
    forall (o : ObjId) (ref : CollRef),
      In o (camera_object :: lights) ->
      linked w' ref o = CollRef_eqb ref (DataColl s).
Proof.
  destruct (main_setup_run w) as (s & cam & lights & w' & Hrun & Hnamed & _ & Hlinks & _).
  exists s, cam, lights, w'. split; [exact Hrun|]. split; [exact Hnamed | exact Hlinks].
Qed.

(** ** Running the setup twice *)









(** ** Standardise, then render *)

Lemma same_sigs_refl (l : list Object) : same_sigs l l.
Proof. intros i. reflexivity. Qed.

Lemma same_sigs_trans (l1 l2 l3 : list Object) :
  same_sigs l1 l2 -> same_sigs l2 l3 -> same_sigs l1 l3.
Proof. intros H12 H23 i. rewrite H23. apply H12. Qed.

Lemma same_sigs_alter (f : Object -> Object) (i : nat) (l : list Object) :
  (forall o, obj_sig (f o) = obj_sig o) -> same_sigs l (alter f i l).
Proof.
  intros Hf j. destruct (l !! j) as [o|] eqn:E.
  - rewrite (lookup_alter_Some _ _ _ _ _ E). cbn.
    destruct (Nat.eqb j i); [rewrite Hf|]; reflexivity.
  - rewrite lookup_ge_None_2; [reflexivity|].
    rewrite length_alter. apply lookup_ge_None_1, E.
Qed.

Lemma same_sigs_map (g : Object -> Object) (l : list Object) :
  (forall o, obj_sig (g o) = obj_sig o) -> same_sigs l (map g l).
Proof.
  intros Hg i. rewrite list_lookup_map. destruct (l !! i); cbn; [rewrite Hg|]; reflexivity.
Qed.

Lemma same_sigs_imap (g : nat -> Object -> Object) (l : list Object) :
  (forall i o, obj_sig (g i o) = obj_sig o) -> same_sigs l (imap g l).
Proof.
  intros Hg i. rewrite list_lookup_imap. destruct (l !! i); cbn; [rewrite Hg|]; reflexivity.
Qed.

(** A step that leaves trace, collections and scene file alone and keeps
    the signatures preserves the invariant. *)
Lemma keeps_step (w0 : World) (X : list Call) (w w' : World) :
  calls w' = calls w ->
  collections w' = collections w ->
  master_objects w' = master_objects w ->
  blend_filepath w' = blend_filepath w ->
  same_sigs (objects w) (objects w') ->
  keeps_with_calls w0 X w -> keeps_with_calls w0 X w'.
Proof.
  intros Hc Hcs Hm Hb Hs (K0 & K1 & K2 & K3 & K4).
  split; [congruence|]. split; [congruence|]. split; [congruence|].
  split; [congruence|]. eapply same_sigs_trans; eassumption.
Qed.

Lemma from_option_world {A} (e : PyExn) (o : option A) (w : World) :
  world_of (from_option e o w) = w.
Proof. destruct o; reflexivity. Qed.

Ltac keeps_leaf :=
  first
    [ assumption
    | eapply keeps_step; [| | | | |eassumption];
      first [ reflexivity
            | apply same_sigs_refl
            | apply same_sigs_alter; reflexivity
            | apply same_sigs_map; intros o; destruct (selected o); reflexivity ] ].

Ltac keeps_run w0 X :=
  repeat first
    [ apply (bind_world_inv (keeps_with_calls w0 X)); [| intros ? ? ?]
    | rewrite get_object_world
    | rewrite from_option_world
    | progress cbn [world_of modify ret raise gets]
    | keeps_leaf ].

(** Whatever its outcome, [standardize_object obj] records its entry and
    changes no link, name or type. *)
Lemma standardize_object_keeps (w0 : World) (X : list Call) (obj : ObjId) (w : World) :
  keeps_with_calls w0 X w ->
  keeps_with_calls w0 (X ++ [CStandardize obj]) (world_of (standardize_object obj w)).
Proof.
  intros (Hc & Hk). unfold standardize_object. rewrite bind_unfold.
  cbn [enter modify].
  assert (H1 : keeps_with_calls w0 (X ++ [CStandardize obj])
                 (set_calls (calls w ++ [CStandardize obj]) w)).
  { split; [msimpl; rewrite Hc; reflexivity | exact Hk]. }
  revert H1. generalize (set_calls (calls w ++ [CStandardize obj]) w). clear w Hc Hk.
  intros w Hw.
  unfold update_object, print, run_operator, host_call.
  keeps_run w0 (X ++ [CStandardize obj]).
Qed.

Lemma bind_Return_inv {A B} (m : M A) (k : A -> M B) (w w' : World) (b : B) :
  bind m k w = Return b w' ->
  exists a w1, m w = Return a w1 /\ k a w1 = Return b w'.
Proof.
  unfold bind. destruct (m w) as [a w1|e w1]; [eauto | discriminate].
Qed.

(** The trace of a loop that completes, from the trace of its body. *)
Lemma for_each_trace {A} (I : World -> Prop) (f : A -> list Call) (xs : list A)
      (body : A -> M unit) :
  (forall x w w1, I w -> body x w = Return tt w1 ->
     I w1 /\ calls w1 = calls w ++ f x) ->
  forall w w', I w -> for_each xs body w = Return tt w' ->
    I w' /\ calls w' = calls w ++ flat_map f xs.
Proof.
  intros Hbody. induction xs as [|x r IH]; intros w w' Hw Hrun; cbn [for_each flat_map] in *.
  - injection Hrun as <-. rewrite app_nil_r. auto.
  - apply bind_Return_inv in Hrun as ([] & w1 & H1 & Hr).
    destruct (Hbody x w w1 Hw H1) as (Hw1 & Hc1).
    destruct (IH w1 w' Hw1 Hr) as (Hw' & Hc'). split; [exact Hw'|].
    rewrite Hc', Hc1, app_assoc. reflexivity.
Qed.

Lemma flat_map_singleton {A B} (g : A -> B) (l : list A) :
  flat_map (fun x => [g x]) l = map g l.
Proof. induction l as [|x r IH]; cbn; congruence. Qed.

Lemma flat_map_filter {A B} (p : A -> bool) (g : A -> list B) (l : list A) :
  flat_map (fun x => if p x then g x else []) l = flat_map g (List.filter p l).
Proof.
  induction l as [|x r IH]; cbn [flat_map List.filter]; [reflexivity|].
  destruct (p x); cbn [flat_map app]; rewrite IH; reflexivity.
Qed.

Lemma keeps_lookup (w0 w : World) (i : ObjId) (o : Object) :
  keeps w0 w ->
  objects w !! i = Some o ->
  is_mesh w0 i = String.eqb (obj_type o) "MESH" /\ name_of w0 i = obj_name o.
Proof.
  intros (_ & _ & _ & Hs) Ho. specialize (Hs i). rewrite Ho in Hs.
  unfold is_mesh, name_of. destruct (objects w0 !! i) as [o0|]; [|discriminate].
  cbn in Hs. injection Hs as Hn Ht. rewrite Hn, Ht. split; reflexivity.
Qed.

Lemma hide_others_sigs (obj : ObjId) (visited : ObjId -> bool) (l : list Object) :
  same_sigs l (hide_others obj visited l).
Proof.
  apply same_sigs_imap. intros i o. destruct (visited i); reflexivity.
Qed.

Lemma create_icons_folder_run (w : World) :
  exists w1 : World,
    create_icons_folder w = Return (icons_dir_of w) w1 /\
    keeps w w1 /\ calls w1 = calls w.
Proof.
  unfold create_icons_folder, makedirs, icons_dir_of. msimpl.
  destruct (existsb _ (fs w)); msimpl; eexists;
    (split; [reflexivity|]); (split; [|reflexivity]); repeat split.
Qed.

(** The first loop of [main] (lines 245-247). *)
Lemma standardize_loop_body (w0 : World) (x : ObjId) (w w1 : World) :
  keeps w0 w ->
  (do o <- get_object x ;
   if String.eqb (obj_type o) "MESH" then standardize_object x else ret tt) w
  = Return tt w1 ->
  keeps w0 w1 /\
  calls w1 = calls w ++ (if is_mesh w0 x then [CStandardize x] else []).
Proof.
  intros Hk Hrun. rewrite bind_unfold in Hrun. unfold get_object in Hrun.
  destruct (objects w !! x) as [o|] eqn:E; [|discriminate].
  destruct (keeps_lookup w0 w x o Hk E) as (-> & _).
  destruct (String.eqb (obj_type o) "MESH").
  - pose proof (standardize_object_keeps w0 (calls w) x w (conj eq_refl Hk)) as Hs.
    rewrite Hrun in Hs. destruct Hs as (Hc & Hk1). auto.
  - injection Hrun as <-. rewrite app_nil_r. auto.
Qed.

(** One render of the inner loop (lines 255-258). *)
Lemma render_loop_body (w0 : World) (icons_dir : string) (x : ObjId) (res : Z)
      (w w1 : World) :
  keeps w0 w ->
  (do o <- get_object x ;
   let icon_dir := path_join icons_dir (obj_name o) in
   setup_render_settings res ;;
   render_object x res icon_dir) w = Return tt w1 ->
  keeps w0 w1 /\
  calls w1 = calls w ++ [CRender x res (path_join icons_dir (name_of w0 x))].
Proof.
  intros Hk Hrun. rewrite bind_unfold in Hrun. unfold get_object in Hrun.
  destruct (objects w !! x) as [o|] eqn:E; [|discriminate].
  destruct (keeps_lookup w0 w x o Hk E) as (_ & ->).
  cbv zeta in Hrun. rewrite bind_unfold in Hrun.
  assert (Hs : exists ws, setup_render_settings res w = Return tt ws /\
                          objects ws = objects w /\ calls ws = calls w /\ keeps w0 ws).
  { eexists. split; [reflexivity|]. msimpl. split; [reflexivity|].
    split; [reflexivity|]. exact Hk. }
  destruct Hs as (ws & Hrs & Hos & Hcs & Hks). rewrite Hrs in Hrun.
  rewrite <- Hos in E. rewrite (render_object_run _ _ _ _ _ E) in Hrun.
  injection Hrun as <-. unfold rendered_world. msimpl. split.
  - destruct Hks as (K1 & K2 & K3 & K4). repeat split; try assumption.
    eapply same_sigs_trans; [exact K4 | apply hide_others_sigs].
  - rewrite Hcs. reflexivity.
Qed.

(** The second loop of [main] (lines 250-260). *)
Lemma render_loop (w0 : World) (icons_dir : string) (x : ObjId) (w w1 : World) :
  keeps w0 w ->
  (do o <- get_object x ;
   if String.eqb (obj_type o) "MESH" then
     print [PStr "Processing object: "; PStr (obj_name o)] ;;
     for_each RESOLUTIONS (fun res =>
       do o <- get_object x ;
       let icon_dir := path_join icons_dir (obj_name o) in
       setup_render_settings res ;;
       render_object x res icon_dir) ;;
     print [PStr (py_str_mul "-" 40)]
   else ret tt) w = Return tt w1 ->
  keeps w0 w1 /\
  calls w1 = calls w ++
    (if is_mesh w0 x
     then map (fun res => CRender x res (path_join icons_dir (name_of w0 x))) RESOLUTIONS
     else []).
Proof.
  intros Hk Hrun. rewrite bind_unfold in Hrun. unfold get_object in Hrun.
  destruct (objects w !! x) as [o|] eqn:E; [|discriminate].
  destruct (keeps_lookup w0 w x o Hk E) as (-> & _).
  destruct (String.eqb (obj_type o) "MESH").
  - rewrite bind_unfold in Hrun. cbn [print modify] in Hrun.
    apply bind_Return_inv in Hrun as ([] & w2 & Hloop & Hprint).
    apply (for_each_trace (keeps w0)
             (fun res => [CRender x res (path_join icons_dir (name_of w0 x))]))
      in Hloop.
    + destruct Hloop as (Hk2 & Hc2). cbn [print modify] in Hprint.
      injection Hprint as <-. split; [exact Hk2|]. msimpl.
      rewrite Hc2, flat_map_singleton. reflexivity.
    + intros res wa wb Hka Hb. eapply render_loop_body; eassumption.
    + exact Hk.
  - injection Hrun as <-. rewrite app_nil_r. auto.
Qed.

(** The trace of the render phase, when it completes. *)
Lemma main_render_trace (w w' : World) (t : CollId) :
  find_collection "Target" w = Some t ->
  main_render w = Return tt w' ->
  calls w' = calls w
    ++ map CStandardize (target_meshes w t)
    ++ flat_map (renders_of w) (target_meshes w t).
Proof.
  intros Hf Hrun. unfold main_render in Hrun.
  destruct (create_icons_folder_run w) as (w1 & Hrun1 & Hk1 & Hc1).
  rewrite bind_unfold, Hrun1 in Hrun.
  assert (Hf1 : find_collection "Target" w1 = Some t).
  { unfold find_collection. destruct Hk1 as (-> & _). exact Hf. }
  assert (Hmem : forall wx, keeps w wx ->
            collection_objects (DataColl t) wx = Return (members w (DataColl t)) wx).
  { intros wx (Hcx & _). unfold collection_objects, members, coll_objects_at, gets.
    rewrite Hcx. reflexivity. }
  unfold collection_by_name in Hrun. rewrite !bind_unfold in Hrun.
  cbn [gets] in Hrun. rewrite Hf1 in Hrun. cbn [ret] in Hrun.
  rewrite bind_unfold, (Hmem w1 Hk1) in Hrun.
  apply bind_Return_inv in Hrun as ([] & w2 & Hloop1 & Hrun).
  apply (for_each_trace (keeps w)
           (fun x => if is_mesh w x then [CStandardize x] else [])) in Hloop1;
    [|intros x wa wb Hka Hb; eapply standardize_loop_body; eassumption | exact Hk1].
  destruct Hloop1 as (Hk2 & Hc2).
  rewrite bind_unfold, (Hmem w2 Hk2) in Hrun.
  apply bind_Return_inv in Hrun as ([] & w3 & Hloop2 & Hprint).
  apply (for_each_trace (keeps w)
           (fun x => if is_mesh w x then renders_of w x else [])) in Hloop2;
    [|intros x wa wb Hka Hb; eapply render_loop; eassumption | exact Hk2].
  destruct Hloop2 as (Hk3 & Hc3). cbn [print modify] in Hprint. injection Hprint as <-.
  msimpl. rewrite Hc3, Hc2, Hc1, !flat_map_filter, flat_map_singleton, <- app_assoc.
  reflexivity.
Qed.

Lemma filter_below (p : ObjId -> bool) (n : nat) (l : list ObjId) :
  (forall x, p x = true -> x < n) ->
  List.filter p (below n l) = List.filter p l.
Proof.
  intros Hp. induction l as [|x r IH]; [reflexivity|].
  rewrite below_cons. cbn [List.filter]. destruct (Nat.ltb x n) eqn:Ex.
  - cbn [List.filter]. rewrite IH. reflexivity.
  - rewrite IH. destruct (p x) eqn:Epx; [|reflexivity].
    apply Hp, Nat.ltb_lt in Epx. congruence.
Qed.

Lemma filter_ext_below (p q : ObjId -> bool) (n : nat) (l : list ObjId) :
  (forall x, x < n -> p x = q x) ->
  List.filter p (below n l) = List.filter q (below n l).
Proof.
  intros Hpq. apply List.filter_ext_in. intros x Hx.
  apply filter_In in Hx as [_ Hx]. apply Nat.ltb_lt in Hx. apply Hpq, Hx.
Qed.

Lemma flat_map_ext_in {A B} (f g : A -> list B) (l : list A) :
  (forall x, In x l -> f x = g x) -> flat_map f l = flat_map g l.
Proof.
  induction l as [|x r IH]; intros Hfg; cbn [flat_map]; [reflexivity|].
  rewrite (Hfg x (or_introl eq_refl)), IH; [reflexivity|].
  intros y Hy. apply Hfg. right. exact Hy.
Qed.

Lemma is_mesh_valid (w : World) (x : ObjId) :
  is_mesh w x = true -> x < length (objects w).
Proof.
  unfold is_mesh. destruct (objects w !! x) eqn:E; [|discriminate].
  intros _. eapply lookup_lt_Some, E.
Qed.

(** The setup phase leaves the mesh objects of every collection, and
    their names, as they were. *)
Lemma rig_step_meshes (w w2 : World) :
  rig_step (length (objects w)) w w2 ->
  (forall x, x < length (objects w) ->
     is_mesh w2 x = is_mesh w x /\ name_of w2 x = name_of w x) /\
  (forall ref,
     List.filter (is_mesh w2) (members w2 ref) = List.filter (is_mesh w) (members w ref)).
Proof.
  intros (_ & _ & R3 & _ & _ & R6 & R7 & _).
  set (n := length (objects w)) in *.
  assert (Fold : forall x, x < n ->
            is_mesh w2 x = is_mesh w x /\ name_of w2 x = name_of w x).
  { intros x Hx. destruct (lookup_lt_is_Some_2 (objects w) x Hx) as [o Ho].
    destruct (R6 x o Hx Ho) as (o' & Ho' & Hn & Ht).
    unfold is_mesh, name_of. rewrite Ho, Ho', Hn, Ht. split; reflexivity. }
  assert (Fnew : forall x, is_mesh w2 x = true -> x < n).
  { intros x Hx. destruct (lt_dec x n) as [Hlt|Hge]; [exact Hlt|]. exfalso.
    unfold is_mesh in Hx. destruct (objects w2 !! x) as [o|] eqn:E; [|discriminate].
    apply String.eqb_eq in Hx. revert Hx. apply (R7 ltac:(
      intros i o0 Hi Ho0; apply lookup_lt_Some in Ho0; fold n in Ho0; lia) x o);
      [lia | exact E]. }
  split; [exact Fold|]. intros ref.
  rewrite <- (filter_below (is_mesh w2) n) by exact Fnew.
  rewrite R3.
  rewrite (filter_ext_below (is_mesh w2) (is_mesh w) n) by (intros x Hx; apply Fold, Hx).
  apply filter_below. intros x Hx. apply is_mesh_valid, Hx.
Qed.

(** C7. When [main] completes on a scene with a "Target" collection, the
    per-object routines it entered are exactly: [standardize_object] once
    for every object of type 'MESH' in "Target", in the collection's
    order, and then, for each of these objects in the same order,
    [render_object] once per resolution in the order 1024, 512, 256, 128,
    64.  Objects of any other type are neither standardized nor
    rendered. *)
Theorem main_processes_target_meshes (w w' : World) (t : CollId) :
  find_collection "Target" w = Some t ->
  main w = Return tt w' ->
  calls w' = calls w
    ++ map CStandardize (target_meshes w t)
    ++ flat_map (renders_of w) (target_meshes w t).
Proof.
  intros Hf Hrun. unfold main, ensure_object_mode, mode_set, collection_exists in Hrun.
  do 3 (rewrite bind_unfold in Hrun; cbn [host_call modify gets] in Hrun).
  set (w0 := set_mode "OBJECT" (set_host_calls (host_calls w ++ [HModeSet "OBJECT"]) w))
    in Hrun.
  assert (Hf0 : find_collection "Target" w0 = Some t) by exact Hf.
  rewrite Hf0 in Hrun. cbn [negb] in Hrun.
  destruct (main_setup_run w0) as (s & cam & lights & w2 & Hrun2 & _ & _ & _ & Hstep).
  rewrite bind_unfold, Hrun2 in Hrun.
  change (length (objects w0)) with (length (objects w)) in Hstep.
  assert (Hstep' : rig_step (length (objects w)) w w2).
  { eapply rig_step_trans; [|exact Hstep]. apply rig_step_same; reflexivity. }
  destruct (rig_step_meshes w w2 Hstep') as (Fold & Fmesh).
  destruct Hstep' as (R1 & R2 & _ & R4 & _).
  rewrite (main_render_trace w2 w' t (R4 _ _ Hf) Hrun).
  unfold target_meshes. rewrite Fmesh, R1. f_equal. f_equal.
  apply flat_map_ext_in. intros x Hx. apply filter_In in Hx as [_ Hx].
  unfold renders_of, icons_dir_of. rewrite R2.
  destruct (Fold x (is_mesh_valid w x Hx)) as (_ & ->). reflexivity.
Qed.

(** ** Further properties: the icons folder *)

(** X1. The icons folder is created when it is missing, and only then:
    after the call the folder exists; when it existed already nothing at
    all is changed, so a second call is always a no-op. *)
Theorem create_icons_folder_once (w : World) :
  exists w1 : World,
    create_icons_folder w = Return (icons_dir_of w) w1 /\
    existsb (String.eqb (icons_dir_of w)) (fs w1) = true /\
    (if existsb (String.eqb (icons_dir_of w)) (fs w)
     then w1 = w
     else fs w1 = fs w ++ [icons_dir_of w] /\
          host_calls w1 = host_calls w ++ [HMakeDirs (icons_dir_of w)]) /\
    create_icons_folder w1 = Return (icons_dir_of w) w1.
Proof.
  assert (Hrun : forall w0, existsb (String.eqb (icons_dir_of w0)) (fs w0) = true ->
            create_icons_folder w0 = Return (icons_dir_of w0) w0).
  { intros w0 H0. unfold create_icons_folder, makedirs.
    rewrite bind_unfold. cbn [gets]. rewrite bind_unfold. cbn [gets].
    fold (icons_dir_of w0). rewrite H0. reflexivity. }
  destruct (existsb (String.eqb (icons_dir_of w)) (fs w)) eqn:E.
  - exists w. rewrite (Hrun w E). repeat split; assumption.
  - eexists. split.
    + unfold create_icons_folder, makedirs.
      rewrite bind_unfold. cbn [gets]. rewrite bind_unfold. cbn [gets].
      fold (icons_dir_of w). rewrite E. msimpl. reflexivity.
    + msimpl.
      assert (Hex : existsb (String.eqb (icons_dir_of w)) (fs w ++ [icons_dir_of w]) = true).
      { rewrite existsb_app. cbn [existsb]. rewrite String.eqb_refl.
        rewrite orb_true_r. reflexivity. }
      split; [exact Hex|]. split; [split; reflexivity|].
      apply (Hrun (set_stdout _ (set_fs _ (set_host_calls _ w)))). exact Hex.
Qed.

(** ** Further properties: links *)

Lemma mem_id_filter_not_in_eq (o : ObjId) (objs l : list ObjId) :
  mem_id o (List.filter (fun x => negb (mem_id x objs)) l)
  = mem_id o l && negb (mem_id o objs).
Proof.
  apply eq_true_iff_eq.
  rewrite andb_true_iff, !mem_id_In, filter_In. reflexivity.
Qed.

(** X2. [ensure_unique_in_collection c objs] always returns. It only
    removes links: an object of [objs] loses its link to every collection
    other than [c]; every other link is as before. In particular it never
    links an object to [c]: an object of [objs] that was not in [c] ends
    up in no collection at all. *)
Theorem ensure_unique_only_unlinks (c : CollRef) (objs : list ObjId) (w : World) :
  exists w' : World,
    ensure_unique_in_collection c objs w = Return tt w' /\
    objects w' = objects w /\
    forall (ref : CollRef) (o : ObjId),
      linked w' ref o
      = linked w ref o && (CollRef_eqb ref c || negb (mem_id o objs)).
Proof.
  destruct (ensure_unique_in_collection_run c objs w) as (w' & Hrun & Hm & Hf & _).
  exists w'. split; [exact Hrun|]. split; [exact Hf|].
  intros ref o. unfold linked. rewrite Hm.
  destruct (CollRef_eqb ref c); cbn [orb].
  - rewrite andb_true_r. reflexivity.
  - apply mem_id_filter_not_in_eq.
Qed.

(** ** Further properties: the camera and the lights *)


(** X4. When the view layer has no light,
    [add_3_point_lighting_to_collection] on a live collection makes
    exactly three objects, in the order key, fill, back: each of type
    'LIGHT', with a 'POINT' light datablock of energy 3000, 1500 and 900,
    at (5, -5, 5), (-5, -5, 5) and (0, 5, 5), and links the three to the
    collection, in that order. *)
Theorem add_3_point_lighting_creates (s : CollId) (w : World) :
  s < length (collections w) ->
  existsb (is_light w) (view_layer_objects w) = false ->
  exists (k f b : Object) (nk nf nb : string) (w' : World),
    add_3_point_lighting_to_collection (DataColl s) w
    = Return [length (objects w); length (objects w) + 1; length (objects w) + 2] w' /\
    objects w' = objects w ++ [k; f; b] /\
    datablocks w'
    = datablocks w ++ [LightData nk "POINT" 3000; LightData nf "POINT" 1500;
                       LightData nb "POINT" 900] /\
    (obj_type k = "LIGHT" /\ obj_type f = "LIGHT" /\ obj_type b = "LIGHT") /\
    (obj_data k = Some (length (datablocks w)) /\
     obj_data f = Some (length (datablocks w) + 1) /\
     obj_data b = Some (length (datablocks w) + 2)) /\
    (location (geom k) = (5, -5, 5)%float /\
     location (geom f) = (-5, -5, 5)%float /\
     location (geom b) = (0, 5, 5)%float) /\
    forall ref,
      members w' ref
      = members w ref ++
        (if CollRef_eqb ref (DataColl s)
         then [length (objects w); length (objects w) + 1; length (objects w) + 2]
         else []).
Proof.
  intros Hs Hl. unfold add_3_point_lighting_to_collection, lights_exist.
  mstep. rewrite Hl.
  unfold new_light_data, set_light_energy, new_object, link_object, update_object.
  repeat (mstep; rewrite ?lookup_snoc_new, ?alter_snoc_new;
          cbn [fmap option_fmap option_map set_energy object_type_of_data]).
  cbn [ret]. rewrite !length_app. cbn [length].
  rewrite <- !Nat.add_assoc. cbn [Nat.add].
  do 7 eexists. split; [reflexivity|]. msimpl.
  split; [rewrite <- !app_assoc; reflexivity|].
  split; [rewrite <- !app_assoc; reflexivity|].
  split; [repeat split; reflexivity|].
  split; [repeat split; reflexivity|].
  split; [repeat split; reflexivity|].
  intros [|i]; unfold members; msimpl.
  - rewrite app_nil_r. reflexivity.
  - cbn [CollRef_eqb].
    rewrite !coll_objects_at_link by (rewrite ?length_alter; exact Hs).
    destruct (Nat.eqb i s); rewrite <- ?app_assoc, ?app_nil_r; reflexivity.
Qed.

(** ** Further properties: standardising one object *)





(** ** Further properties: what [main] leaves alone *)

Lemma keeps_frame (w0 w w' : World) :
  collections w' = collections w ->
  master_objects w' = master_objects w ->
  blend_filepath w' = blend_filepath w ->
  same_sigs (objects w) (objects w') ->
  keeps w0 w -> keeps w0 w'.
Proof.
  intros Hcs Hm Hb Hs (K1 & K2 & K3 & K4).
  split; [congruence|]. split; [congruence|]. split; [congruence|].
  eapply same_sigs_trans; eassumption.
Qed.

Lemma standardize_object_keeps_links (w0 : World) (obj : ObjId) (w : World) :
  keeps w0 w -> keeps w0 (world_of (standardize_object obj w)).
Proof.
  intros Hk.
  apply (standardize_object_keeps w0 (calls w) obj w (conj eq_refl Hk)).
Qed.

Ltac keeps_links_leaf :=
  first
    [ assumption
    | apply standardize_object_keeps_links; assumption
    | eapply keeps_frame; [| | | |eassumption];
      first [ reflexivity
            | apply same_sigs_refl
            | apply same_sigs_alter; reflexivity ] ].

Ltac keeps_links_run w0 :=
  repeat first
    [ keeps_links_leaf
    | apply (bind_world_inv (keeps w0)); [| intros ? ? ?]
    | apply (for_each_world_inv (keeps w0)); [intros ? ? ?|]
    | rewrite get_object_world
    | progress cbn [world_of modify ret raise gets]
    | match goal with
      | |- context [match ?o with Some _ => _ | None => _ end] => destruct o
      | |- context [if ?b then _ else _] => destruct b
      end ].

(** Whatever its outcome, the render phase changes no link, name or type. *)
Lemma main_render_keeps (w0 w : World) :
  keeps w0 w -> keeps w0 (world_of (main_render w)).
Proof.
  intros Hk.
  unfold main_render, create_icons_folder, makedirs, collection_by_name,
    collection_objects, setup_render_settings, render_object, render_write_still,
    modify_render, update_object, print, host_call, enter.
  keeps_links_run w0.
Qed.

(** X7. Whatever its outcome (completion, or an exception part-way),
    [main] keeps every object that was there, under the same name and
    type, and changes no link between these objects and any collection: it
    deletes, renames, retypes, links and unlinks nothing that pre-exists.
    *)
Theorem main_preserves_existing (w : World) :
  let w' := world_of (main w) in
  (forall (i : ObjId) (o : Object),
     objects w !! i = Some o ->
     exists o', objects w' !! i = Some o' /\
                obj_name o' = obj_name o /\ obj_type o' = obj_type o) /\
  (forall ref : CollRef,
     below (length (objects w)) (members w' ref)
     = below (length (objects w)) (members w ref)).
Proof.
  cbv zeta. unfold main, ensure_object_mode, mode_set, collection_exists.
  do 3 (rewrite bind_unfold; cbn [host_call modify gets]).
  set (w0 := set_mode "OBJECT" (set_host_calls (host_calls w ++ [HModeSet "OBJECT"]) w)).
  change (find_collection "Target" _) with (find_collection "Target" w).
  destruct (find_collection "Target" w) as [t|]; cbn [negb].
  - destruct (main_setup_run w0) as (s & cam & lights & w2 & Hrun2 & _ & _ & _ & Hstep).
    rewrite bind_unfold, Hrun2.
    change (length (objects w0)) with (length (objects w)) in Hstep.
    assert (Hstep' : rig_step (length (objects w)) w w2).
    { eapply rig_step_trans; [|exact Hstep]. apply rig_step_same; reflexivity. }
    destruct Hstep' as (_ & _ & R3 & _ & _ & R6 & _).
    destruct (main_render_keeps w2 w2 ltac:(repeat split)) as (K1 & K2 & _ & K4).
    split.
    + intros i o Ho.
      destruct (R6 i o (lookup_lt_Some _ _ _ Ho) Ho) as (o2 & Ho2 & Hn & Ht).
      specialize (K4 i). rewrite Ho2 in K4.
      destruct (objects (world_of (main_render w2)) !! i) as [o'|]; [|discriminate].
      exists o'. cbn in K4. injection K4 as Hn' Ht'.
      split; [reflexivity|]. split; congruence.
    + intros ref. rewrite <- R3. f_equal.
      destruct ref as [|i]; unfold members; [exact K2 | rewrite K1; reflexivity].
  - cbn [print modify world_of]. split.
    + intros i o Ho. exists o. repeat split. exact Ho.
    + intros ref. reflexivity.
Qed.

(** ** Further properties: the renders issued to the host *)

Lemma render_paths_snoc (l : list HostCall) (c : HostCall) :
  render_paths (l ++ [c])
  = render_paths l ++ match c with HRender p => [p] | _ => [] end.
Proof. unfold render_paths. rewrite flat_map_app. cbn. rewrite app_nil_r. reflexivity. Qed.

Ltac renders_leaf :=
  unfold renders_only in *;
  cbn [world_of modify ret raise gets
       host_calls set_mode set_objects set_collections set_master_objects
       set_datablocks set_scene_camera set_active_object set_render set_fs
       set_stdout set_host_calls set_calls];
  first [ assumption
        | rewrite render_paths_snoc; cbn [app]; rewrite app_nil_r; assumption ].

Ltac renders_run X :=
  repeat first
    [ apply (bind_world_inv (renders_only X)); [| intros ? ? ?]
    | apply (for_each_world_inv (renders_only X)); [intros ? ? ?|]
    | rewrite get_object_world
    | rewrite from_option_world
    | match goal with
      | |- context [match ?o with Some _ => _ | None => _ end] => destruct o
      | |- context [if ?b then _ else _] => destruct b
      | |- context [match ?c with SceneMaster => _ | DataColl _ => _ end] => destruct c
      end
    | renders_leaf ].

(** Whatever its outcome, standardising renders nothing. *)
Lemma standardize_object_no_render (X : list string) (obj : ObjId) (w : World) :
  renders_only X w -> renders_only X (world_of (standardize_object obj w)).
Proof.
  intros Hw.
  unfold standardize_object, scale_object_to_fit_camera, mode_set, run_operator,
    update_object, print, host_call, enter.
  cbv zeta. change (String.eqb "XY" "XY") with true. cbv iota.
  renders_run X.
Qed.

(** The setup phase renders nothing. *)
Lemma main_setup_no_render (X : list string) (w : World) :
  renders_only X w -> renders_only X (world_of (main_setup w)).
Proof.
  intros Hw.
  unfold main_setup, create_setup_collection, add_camera_to_collection,
    add_3_point_lighting_to_collection, ensure_unique_in_collection,
    view_layer_update, collection_exists, collection_by_name, lights_exist,
    new_collection, link_child_to_scene, new_camera_data, new_light_data,
    set_light_energy, new_object, link_object, unlink_object, update_object,
    print, host_call.
  renders_run X.
Qed.

(** The observations of a loop that completes, from those of its body. *)
Lemma for_each_obs {A X} (obs : World -> list X) (I : World -> Prop)
      (f : A -> list X) (xs : list A) (body : A -> M unit) :
  (forall x w w1, I w -> body x w = Return tt w1 ->
     I w1 /\ obs w1 = obs w ++ f x) ->
  forall w w', I w -> for_each xs body w = Return tt w' ->
    I w' /\ obs w' = obs w ++ flat_map f xs.
Proof.
  intros Hbody. induction xs as [|x r IH]; intros w w' Hw Hrun; cbn [for_each flat_map] in *.
  - injection Hrun as <-. rewrite app_nil_r. auto.
  - apply bind_Return_inv in Hrun as ([] & w1 & H1 & Hr).
    destruct (Hbody x w w1 Hw H1) as (Hw1 & Hc1).
    destruct (IH w1 w' Hw1 Hr) as (Hw' & Hc'). split; [exact Hw'|].
    rewrite Hc', Hc1, app_assoc. reflexivity.
Qed.

Lemma flat_map_nil {A B} (l : list A) : flat_map (fun _ : A => @nil B) l = [].
Proof. induction l as [|x r IH]; cbn; congruence. Qed.

Lemma standardize_loop_no_render (w0 : World) (x : ObjId) (w w1 : World) :
  keeps w0 w ->
  (do o <- get_object x ;
   if String.eqb (obj_type o) "MESH" then standardize_object x else ret tt) w
  = Return tt w1 ->
  keeps w0 w1 /\
  render_paths (host_calls w1) = render_paths (host_calls w) ++ [].
Proof.
  intros Hk Hrun. rewrite app_nil_r.
  split; [apply (standardize_loop_body w0 x w w1 Hk Hrun)|].
  rewrite bind_unfold in Hrun. unfold get_object in Hrun.
  destruct (objects w !! x) as [o|]; [|discriminate].
  destruct (String.eqb (obj_type o) "MESH").
  - pose proof (standardize_object_no_render _ x w eq_refl) as Hs.
    rewrite Hrun in Hs. exact Hs.
  - injection Hrun as <-. reflexivity.
Qed.

Lemma render_loop_body_path (w0 : World) (icons_dir : string) (x : ObjId) (res : Z)
      (w w1 : World) :
  keeps w0 w ->
  (do o <- get_object x ;
   let icon_dir := path_join icons_dir (obj_name o) in
   setup_render_settings res ;;
   render_object x res icon_dir) w = Return tt w1 ->
  keeps w0 w1 /\
  render_paths (host_calls w1)
  = render_paths (host_calls w)
    ++ [path_join (path_join icons_dir (name_of w0 x)) (py_str_int res ++ ".png")].
Proof.
  intros Hk Hrun. split; [apply (render_loop_body w0 icons_dir x res w w1 Hk Hrun)|].
  rewrite bind_unfold in Hrun. unfold get_object in Hrun.
  destruct (objects w !! x) as [o|] eqn:E; [|discriminate].
  destruct (keeps_lookup w0 w x o Hk E) as (_ & ->).
  cbv zeta in Hrun. rewrite bind_unfold in Hrun.
  assert (Hs : exists ws, setup_render_settings res w = Return tt ws /\
                          objects ws = objects w /\ host_calls ws = host_calls w).
  { eexists. split; [reflexivity|]. msimpl. split; reflexivity. }
  destruct Hs as (ws & Hrs & Hos & Hcs). rewrite Hrs in Hrun.
  rewrite <- Hos in E. rewrite (render_object_run _ _ _ _ _ E) in Hrun.
  injection Hrun as <-. unfold rendered_world. msimpl.
  rewrite render_paths_snoc, Hcs. reflexivity.
Qed.

Lemma render_loop_paths (w0 : World) (icons_dir : string) (x : ObjId) (w w1 : World) :
  keeps w0 w ->
  (do o <- get_object x ;
   if String.eqb (obj_type o) "MESH" then
     print [PStr "Processing object: "; PStr (obj_name o)] ;;
     for_each RESOLUTIONS (fun res =>
       do o <- get_object x ;
       let icon_dir := path_join icons_dir (obj_name o) in
       setup_render_settings res ;;
       render_object x res icon_dir) ;;
     print [PStr (py_str_mul "-" 40)]
   else ret tt) w = Return tt w1 ->
  keeps w0 w1 /\
  render_paths (host_calls w1)
  = render_paths (host_calls w) ++
    (if is_mesh w0 x
     then map (fun res =>
                 path_join (path_join icons_dir (name_of w0 x)) (py_str_int res ++ ".png"))
              RESOLUTIONS
     else []).
Proof.
  intros Hk Hrun. rewrite bind_unfold in Hrun. unfold get_object in Hrun.
  destruct (objects w !! x) as [o|] eqn:E; [|discriminate].
  destruct (keeps_lookup w0 w x o Hk E) as (-> & _).
  destruct (String.eqb (obj_type o) "MESH").
  - rewrite bind_unfold in Hrun. cbn [print modify] in Hrun.
    apply bind_Return_inv in Hrun as ([] & w2 & Hloop & Hprint).
    apply (for_each_obs (fun w => render_paths (host_calls w)) (keeps w0)
             (fun res => [path_join (path_join icons_dir (name_of w0 x))
                                    (py_str_int res ++ ".png")]))
      in Hloop.
    + destruct Hloop as (Hk2 & Hc2). cbn [print modify] in Hprint.
      injection Hprint as <-. split; [exact Hk2|]. msimpl.
      rewrite Hc2, flat_map_singleton. reflexivity.
    + intros res wa wb Hka Hb. eapply render_loop_body_path; eassumption.
    + exact Hk.
  - injection Hrun as <-. rewrite app_nil_r. auto.
Qed.

Lemma main_render_paths (w w' : World) (t : CollId) :
  find_collection "Target" w = Some t ->
  main_render w = Return tt w' ->
  render_paths (host_calls w')
  = render_paths (host_calls w) ++ flat_map (output_paths w) (target_meshes w t).
Proof.
  intros Hf Hrun. unfold main_render in Hrun.
  assert (Hicons : exists w1, create_icons_folder w = Return (icons_dir_of w) w1 /\
            keeps w w1 /\ render_paths (host_calls w1) = render_paths (host_calls w)).
  { unfold create_icons_folder, makedirs, icons_dir_of. msimpl.
    destruct (existsb _ (fs w)); msimpl; eexists;
      (split; [reflexivity|]); (split; [repeat split|]); msimpl;
      rewrite ?render_paths_snoc, ?app_nil_r; reflexivity. }
  destruct Hicons as (w1 & Hrun1 & Hk1 & Hc1).
  rewrite bind_unfold, Hrun1 in Hrun.
  assert (Hf1 : find_collection "Target" w1 = Some t).
  { unfold find_collection. destruct Hk1 as (-> & _). exact Hf. }
  assert (Hmem : forall wx, keeps w wx ->
            collection_objects (DataColl t) wx = Return (members w (DataColl t)) wx).
  { intros wx (Hcx & _). unfold collection_objects, members, coll_objects_at, gets.
    rewrite Hcx. reflexivity. }
  unfold collection_by_name in Hrun. rewrite !bind_unfold in Hrun.
  cbn [gets] in Hrun. rewrite Hf1 in Hrun. cbn [ret] in Hrun.
  rewrite bind_unfold, (Hmem w1 Hk1) in Hrun.
  apply bind_Return_inv in Hrun as ([] & w2 & Hloop1 & Hrun).
  apply (for_each_obs (fun w => render_paths (host_calls w)) (keeps w)
           (fun _ => [])) in Hloop1;
    [|intros x wa wb Hka Hb; eapply standardize_loop_no_render; eassumption | exact Hk1].
  destruct Hloop1 as (Hk2 & Hc2).
  rewrite bind_unfold, (Hmem w2 Hk2) in Hrun.
  apply bind_Return_inv in Hrun as ([] & w3 & Hloop2 & Hprint).
  apply (for_each_obs (fun w => render_paths (host_calls w)) (keeps w)
           (fun x => if is_mesh w x then output_paths w x else [])) in Hloop2;
    [|intros x wa wb Hka Hb; eapply render_loop_paths; eassumption | exact Hk2].
  destruct Hloop2 as (Hk3 & Hc3). cbn [print modify] in Hprint. injection Hprint as <-.
  msimpl. rewrite Hc3, Hc2, Hc1, flat_map_nil, app_nil_r, flat_map_filter.
  reflexivity.
Qed.

(** The renders of a completed run, as [main] composes its phases. *)
Lemma main_render_paths_run (w w' : World) (t : CollId) :
  find_collection "Target" w = Some t ->
  main w = Return tt w' ->
  render_paths (host_calls w')
  = render_paths (host_calls w) ++ flat_map (output_paths w) (target_meshes w t).
Proof.
  intros Hf Hrun. unfold main, ensure_object_mode, mode_set, collection_exists in Hrun.
  do 3 (rewrite bind_unfold in Hrun; cbn [host_call modify gets] in Hrun).
  set (w0 := set_mode "OBJECT" (set_host_calls (host_calls w ++ [HModeSet "OBJECT"]) w))
    in Hrun.
  assert (Hf0 : find_collection "Target" w0 = Some t) by exact Hf.
  rewrite Hf0 in Hrun. cbn [negb] in Hrun.
  destruct (main_setup_run w0) as (s & cam & lights & w2 & Hrun2 & _ & _ & _ & Hstep).
  pose proof (main_setup_no_render (render_paths (host_calls w)) w0) as Hnr.
  rewrite Hrun2 in Hnr. cbn [world_of] in Hnr.
  assert (Hr0 : renders_only (render_paths (host_calls w)) w0).
  { unfold renders_only, w0. msimpl. rewrite render_paths_snoc. apply app_nil_r. }
  specialize (Hnr Hr0). unfold renders_only in Hnr.
  rewrite bind_unfold, Hrun2 in Hrun.
  change (length (objects w0)) with (length (objects w)) in Hstep.
  assert (Hstep' : rig_step (length (objects w)) w w2).
  { eapply rig_step_trans; [|exact Hstep]. apply rig_step_same; reflexivity. }
  destruct (rig_step_meshes w w2 Hstep') as (Fold & Fmesh).
  destruct Hstep' as (R1 & R2 & _ & R4 & _).
  rewrite (main_render_paths w2 w' t (R4 _ _ Hf) Hrun), Hnr.
  unfold target_meshes. rewrite Fmesh. f_equal.
  apply flat_map_ext_in. intros x Hx. apply filter_In in Hx as [_ Hx].
  unfold output_paths, icons_dir_of. rewrite R2.
  destruct (Fold x (is_mesh_valid w x Hx)) as (_ & ->). reflexivity.
Qed.

(** X8. When [main] completes on a scene with a "Target" collection, the
    renders it issued to the host are exactly, in order: for every mesh of
    "Target", in the collection's order, one render per resolution in the
    order 1024, 512, 256, 128, 64, written to the name of the mesh joined
    to the icons folder and [<resolution>.png] joined to that. Nothing
    else is rendered; with no mesh in "Target" nothing is. *)
Theorem main_issues_renders (w w' : World) (t : CollId) :
  find_collection "Target" w = Some t ->
  main w = Return tt w' ->
  render_paths (host_calls w')
  = render_paths (host_calls w) ++ flat_map (output_paths w) (target_meshes w t).
Proof. apply main_render_paths_run. Qed.

(** ** Further properties: the scene camera *)

Lemma ensure_unique_scene_camera (X : option ObjId) (c : CollRef) (objs : list ObjId)
      (w : World) :
  scene_camera w = X ->
  scene_camera (world_of (ensure_unique_in_collection c objs w)) = X.
Proof.
  set (P := fun w' : World => scene_camera w' = X). intros Hw.
  change (P w) in Hw.
  change (P (world_of (ensure_unique_in_collection c objs w))).
  unfold ensure_unique_in_collection, unlink_object, print.
  repeat first
    [ assumption
    | apply (bind_world_inv P); [| intros ? ? ?]
    | apply (for_each_world_inv P); [intros ? ? ?|]
    | match goal with
      | |- context [if ?b then _ else _] => destruct b
      | |- context [match ?r with SceneMaster => _ | DataColl _ => _ end] => destruct r
      end
    | progress cbn [world_of modify ret gets] ].
Qed.

Lemma add_3_point_lighting_objects (s : CollId) (w : World) :
  exists (lights : list ObjId) (extra : list Object) (w' : World),
    add_3_point_lighting_to_collection (DataColl s) w = Return lights w' /\
    objects w' = objects w ++ extra.
Proof.
  destruct (existsb (is_light w) (view_layer_objects w)) eqn:Hl.
  - exists [], []. eexists. split; [apply add_3_point_lighting_skip, Hl|].
    msimpl. rewrite app_nil_r. reflexivity.
  - destruct (add_3_point_lighting_run s w Hl)
      as (k & f & b & dk & df & db & _ & Hrun).
    eexists. exists [k; f; b]. eexists. split; [exact Hrun|].
    unfold with_new_object. msimpl. rewrite <- !app_assoc. reflexivity.
Qed.

(** X9. The setup phase has no guard on the camera: every run makes a new
    object of type 'CAMERA' and makes it the scene's camera, whatever
    cameras the scene already had. Running [main] again therefore adds one
    more camera each time. *)
Theorem main_setup_new_camera (w : World) :
  exists (s : CollId) (lights : list ObjId) (w' : World) (o : Object),
    main_setup w = Return (DataColl s, length (objects w), lights) w' /\
    scene_camera w' = Some (length (objects w)) /\
    objects w' !! length (objects w) = Some o /\
    obj_type o = "CAMERA".
Proof.
  set (n := length (objects w)).
  destruct (create_setup_collection_spec w)
    as (s & w1 & Hrun1 & _ & _ & Hobjs1 & _ & _).
  destruct (add_camera_to_collection_run s w1) as (co & cd & Tc & Hrun2).
  rewrite Hobjs1 in Hrun2. fold n in Hrun2.
  set (w2 := with_new_object s co cd
               (set_stdout (stdout w1 ++ [[PStr "Adding camera..."]]) w1)) in *.
  assert (Hcam2 : objects w2 !! n = Some co).
  { unfold w2, with_new_object, n. msimpl. rewrite <- Hobjs1. apply lookup_snoc_new. }
  destruct (add_3_point_lighting_objects s w2) as (lights & extra & w3 & Hrun3 & Hobjs3).
  set (w4 := world_of (view_layer_update (set_scene_camera (Some n) w3))).
  assert (Hrun4 : view_layer_update (set_scene_camera (Some n) w3) = Return tt w4)
    by reflexivity.
  pose proof (ensure_unique_scene_camera (Some n) (DataColl s) ([n] ++ lights) w4
                eq_refl) as Hsc.
  destruct (ensure_unique_in_collection_run (DataColl s) ([n] ++ lights) w4)
    as (w5 & Hrun5 & _ & Hobjs5 & _).
  rewrite Hrun5 in Hsc. cbn [world_of] in Hsc.
  exists s, lights. eexists. eexists. split.
  { unfold main_setup. rewrite bind_unfold, Hrun1, bind_unfold, Hrun2.
    rewrite bind_unfold, Hrun3. mstep. rewrite bind_unfold, Hrun4.
    rewrite bind_unfold, Hrun5. mstep. reflexivity. }
  msimpl. split; [exact Hsc|]. rewrite Hobjs5.
  unfold w4, view_layer_update. msimpl. rewrite list_lookup_imap, Hobjs3.
  rewrite (lookup_app_l_Some _ _ _ _ Hcam2). cbn [fmap option_fmap option_map].
  split; [reflexivity|].
  match goal with |- context [if ?b then _ else _] => destruct b end; exact Tc.
Qed.

(** ** Further properties: output files of plainly named meshes *)

(** X10. When every mesh of "Target" has a name that is not empty and
    neither begins nor ends with the separator, a completed [main] has
    rendered exactly the files [Icons/<name>/<resolution>.png] under the
    directory of the scene file, for every mesh and resolution, in order.
    *)
Theorem main_renders_under_icons (w w' : World) (t : CollId) :
  find_collection "Target" w = Some t ->
  (forall x, In x (target_meshes w t) -> plain_name (name_of w x)) ->
  main w = Return tt w' ->
  render_paths (host_calls w')
  = render_paths (host_calls w)
    ++ flat_map
         (fun x =>
            map (fun res =>
                   path_join (path_dirname (blend_filepath w))
                     ("Icons/" ++ name_of w x ++ "/" ++ py_str_int res ++ ".png"))
                RESOLUTIONS)
         (target_meshes w t).
Proof.
  intros Hf Hplain Hrun.
  pose proof (main_render_paths_run w w' t Hf Hrun) as Hpaths.
  rewrite Hpaths. f_equal. apply flat_map_ext_in. intros x Hx.
  unfold output_paths, icons_dir_of. apply map_ext_in. intros res Hres.
  apply icon_path_joins; [exact Hres | apply Hplain, Hx].
Qed.

(** ** Further properties: runs cut short *)

Lemma bind_world_of {A B} (m : M A) (k : A -> M B) (w : World) :
  world_of (bind m k w)
  = match m w with
    | Return a w1 => world_of (k a w1)
    | Raise _ w1 => w1
    end.
Proof. unfold bind. destruct (m w); reflexivity. Qed.

(** The observations of a loop, whatever its outcome: those of the
    iterations that ran, the last one possibly cut short. *)
Lemma for_each_prefix {A X} (obs : World -> list X) (I : World -> Prop)
      (f : A -> list X) (xs : list A) (body : A -> M unit) :
  (forall x w, I w ->
     I (world_of (body x w)) /\
     exists p q, obs (world_of (body x w)) = obs w ++ p /\ f x = p ++ q /\
                 (forall w1, body x w = Return tt w1 -> q = [])) ->
  forall w, I w ->
    I (world_of (for_each xs body w)) /\
    exists p q, obs (world_of (for_each xs body w)) = obs w ++ p /\
                flat_map f xs = p ++ q /\
                (forall w1, for_each xs body w = Return tt w1 -> q = []).
Proof.
  intros Hbody. induction xs as [|x r IH]; intros w Hw; cbn [for_each flat_map].
  - split; [exact Hw|]. exists [], []. cbn. rewrite app_nil_r. auto.
  - destruct (Hbody x w Hw) as (Hw1 & p & q & Hobs & Hf & Hq).
    rewrite bind_world_of. unfold bind. destruct (body x w) as [[] w1|e w1];
      cbn [world_of] in *.
    + specialize (Hq w1 eq_refl). subst q. rewrite app_nil_r in Hf.
      destruct (IH w1 Hw1) as (Hw' & p' & q' & Hobs' & Hf' & Hq').
      split; [exact Hw'|]. exists (p ++ p'), q'.
      rewrite Hobs', Hobs, Hf, Hf', !app_assoc. auto.
    + split; [exact Hw1|]. exists p, (q ++ flat_map f r).
      rewrite Hobs, Hf, app_assoc. split; [reflexivity|]. split; [reflexivity|].
      discriminate.
Qed.

Lemma render_loop_body_any (w0 : World) (icons_dir : string) (x : ObjId) (res : Z)
      (w : World) :
  keeps w0 w ->
  let r := (do o <- get_object x ;
            let icon_dir := path_join icons_dir (obj_name o) in
            setup_render_settings res ;;
            render_object x res icon_dir) w in
  keeps w0 (world_of r) /\
  exists p q,
    render_paths (host_calls (world_of r)) = render_paths (host_calls w) ++ p /\
    [path_join (path_join icons_dir (name_of w0 x)) (py_str_int res ++ ".png")] = p ++ q /\
    (forall w1, r = Return tt w1 -> q = []).
Proof.
  intros Hk r.
  assert (Hcases : (exists w1, r = Return tt w1) \/ (exists e, r = Raise e w)).
  { unfold r. rewrite bind_unfold. unfold get_object.
    destruct (objects w !! x) as [o|] eqn:E; [left|right; eauto].
    cbv zeta. rewrite bind_unfold.
    assert (Hs : exists ws, setup_render_settings res w = Return tt ws /\
                            objects ws = objects w).
    { eexists. split; reflexivity. }
    destruct Hs as (ws & -> & Hos). rewrite <- Hos in E.
    rewrite (render_object_run _ _ _ _ _ E). eauto. }
  destruct Hcases as [(w1 & Hr)|(e & Hr)].
  - destruct (render_loop_body_path w0 icons_dir x res w w1 Hk Hr) as (Hk1 & Hp).
    rewrite Hr. cbn [world_of]. split; [exact Hk1|].
    eexists. exists []. split; [exact Hp|]. rewrite app_nil_r. auto.
  - rewrite Hr. cbn [world_of]. split; [exact Hk|].
    exists []. eexists. rewrite app_nil_r. split; [reflexivity|].
    split; [reflexivity|]. discriminate.
Qed.

Lemma render_loop_any (w0 : World) (icons_dir : string) (x : ObjId) (w : World) :
  keeps w0 w ->
  let r := (do o <- get_object x ;
            if String.eqb (obj_type o) "MESH" then
              print [PStr "Processing object: "; PStr (obj_name o)] ;;
              for_each RESOLUTIONS (fun res =>
                do o <- get_object x ;
                let icon_dir := path_join icons_dir (obj_name o) in
                setup_render_settings res ;;
                render_object x res icon_dir) ;;
              print [PStr (py_str_mul "-" 40)]
            else ret tt) w in
  keeps w0 (world_of r) /\
  exists p q,
    render_paths (host_calls (world_of r)) = render_paths (host_calls w) ++ p /\
    (if is_mesh w0 x
     then map (fun res =>
                 path_join (path_join icons_dir (name_of w0 x)) (py_str_int res ++ ".png"))
              RESOLUTIONS
     else []) = p ++ q /\
    (forall w1, r = Return tt w1 -> q = []).
Proof.
  intros Hk r. unfold r. rewrite bind_unfold. unfold get_object.
  destruct (objects w !! x) as [o|] eqn:E.
  - destruct (keeps_lookup w0 w x o Hk E) as (-> & _).
    destruct (String.eqb (obj_type o) "MESH").
    + rewrite bind_unfold. cbn [print modify].
      rewrite bind_unfold.
      match goal with
      | |- context [for_each RESOLUTIONS ?b ?wp] =>
          assert (Hkp : keeps w0 wp) by exact Hk;
          destruct (for_each_prefix (fun w => render_paths (host_calls w)) (keeps w0)
                      (fun res => [path_join (path_join icons_dir (name_of w0 x))
                                             (py_str_int res ++ ".png")])
                      RESOLUTIONS b
                      (fun res wa Hka => render_loop_body_any w0 icons_dir x res wa Hka)
                      wp Hkp) as (Hk2 & p & q & Hobs & Hf & Hq);
          destruct (for_each RESOLUTIONS b wp) as [[] w2|e w2]
      end; rewrite flat_map_singleton in Hf; cbn [print modify world_of] in *.
      * specialize (Hq w2 eq_refl). subst q.
        split; [exact Hk2|]. exists p, []. split; [exact Hobs|]. split; [exact Hf|]. auto.
      * split; [exact Hk2|]. exists p, q. split; [exact Hobs|]. split; [exact Hf|].
        discriminate.
    + cbn [ret world_of]. split; [exact Hk|]. exists [], [].
      rewrite app_nil_r. auto.
  - cbn [world_of]. split; [exact Hk|]. eexists []. eexists.
    rewrite app_nil_r. split; [reflexivity|]. split; [reflexivity|]. discriminate.
Qed.

Lemma standardize_loop_any (w0 : World) (X : list string) (xs : list ObjId) (w : World) :
  keeps w0 w -> renders_only X w ->
  let w' := world_of (for_each xs (fun obj =>
              do o <- get_object obj ;
              if String.eqb (obj_type o) "MESH" then standardize_object obj else ret tt) w) in
  keeps w0 w' /\ renders_only X w'.
Proof.
  intros Hk Hr. cbv zeta. split.
  - keeps_links_run w0.
  - apply (for_each_world_inv (renders_only X)); [|exact Hr].
    intros x wa Ha. apply (bind_world_inv (renders_only X)).
    + rewrite get_object_world. exact Ha.
    + intros o wb Hb. destruct (String.eqb (obj_type o) "MESH").
      * apply standardize_object_no_render, Hb.
      * exact Hb.
Qed.

Lemma main_render_prefix (w : World) (t : CollId) :
  find_collection "Target" w = Some t ->
  exists p q,
    render_paths (host_calls (world_of (main_render w)))
    = render_paths (host_calls w) ++ p /\
    flat_map (output_paths w) (target_meshes w t) = p ++ q.
Proof.
  intros Hf. unfold main_render.
  assert (Hicons : exists w1, create_icons_folder w = Return (icons_dir_of w) w1 /\
            keeps w w1 /\ render_paths (host_calls w1) = render_paths (host_calls w)).
  { unfold create_icons_folder, makedirs, icons_dir_of. msimpl.
    destruct (existsb _ (fs w)); msimpl; eexists;
      (split; [reflexivity|]); (split; [repeat split|]); msimpl;
      rewrite ?render_paths_snoc, ?app_nil_r; reflexivity. }
  destruct Hicons as (w1 & Hrun1 & Hk1 & Hc1).
  rewrite bind_unfold, Hrun1.
  assert (Hf1 : find_collection "Target" w1 = Some t).
  { unfold find_collection. destruct Hk1 as (-> & _). exact Hf. }
  assert (Hmem : forall wx, keeps w wx ->
            collection_objects (DataColl t) wx = Return (members w (DataColl t)) wx).
  { intros wx (Hcx & _). unfold collection_objects, members, coll_objects_at, gets.
    rewrite Hcx. reflexivity. }
  unfold collection_by_name. rewrite !bind_unfold.
  cbn [gets]. rewrite Hf1. cbn [ret].
  rewrite bind_unfold, (Hmem w1 Hk1). rewrite bind_world_of.
  destruct (standardize_loop_any w (render_paths (host_calls w))
              (members w (DataColl t)) w1 Hk1 Hc1) as (Hk2 & Hr2).
  unfold renders_only in Hr2. unfold bind at 1.
  destruct (for_each (members w (DataColl t)) _ w1) as [[] w2|e w2];
    cbn [world_of] in Hk2, Hr2.
  - rewrite bind_unfold, (Hmem w2 Hk2). rewrite bind_world_of.
    destruct (for_each_prefix (fun w => render_paths (host_calls w)) (keeps w)
                (fun x => if is_mesh w x then output_paths w x else [])
                (members w (DataColl t)) _
                (fun x wa Hka => render_loop_any w (icons_dir_of w) x wa Hka)
                w2 Hk2) as (_ & p & q & Hobs & Hfl & _).
    rewrite flat_map_filter in Hfl. exists p, q. split; [|exact Hfl].
    unfold bind. destruct (for_each (members w (DataColl t)) _ w2) as [[] w3|e w3];
      cbn [world_of] in Hobs |- *.
    + cbn [print modify world_of]. msimpl. rewrite Hobs, Hr2. reflexivity.
    + rewrite Hobs, Hr2. reflexivity.
  - exists []. eexists. rewrite app_nil_r. split; [exact Hr2 | reflexivity].
Qed.

(** X11. Whatever the outcome of [main] (completion, or an exception
    part-way), the renders issued to the host are an initial segment of
    the complete sequence: [main] never renders anything but a mesh of
    "Target" at a listed resolution to its own path, and never out of
    order. *)
Theorem main_renders_initial_segment (w : World) (t : CollId) :
  find_collection "Target" w = Some t ->
  exists p q,
    render_paths (host_calls (world_of (main w)))
    = render_paths (host_calls w) ++ p /\
    flat_map (output_paths w) (target_meshes w t) = p ++ q.
Proof.
  intros Hf. unfold main, ensure_object_mode, mode_set, collection_exists.
  do 3 (rewrite bind_unfold; cbn [host_call modify gets]).
  set (w0 := set_mode "OBJECT" (set_host_calls (host_calls w ++ [HModeSet "OBJECT"]) w)).
  assert (Hf0 : find_collection "Target" w0 = Some t) by exact Hf.
  rewrite Hf0. cbn [negb].
  destruct (main_setup_run w0) as (s & cam & lights & w2 & Hrun2 & _ & _ & _ & Hstep).
  pose proof (main_setup_no_render (render_paths (host_calls w)) w0) as Hnr.
  rewrite Hrun2 in Hnr. cbn [world_of] in Hnr.
  assert (Hr0 : renders_only (render_paths (host_calls w)) w0).
  { unfold renders_only, w0. msimpl. rewrite render_paths_snoc. apply app_nil_r. }
  specialize (Hnr Hr0). unfold renders_only in Hnr.
  rewrite bind_unfold, Hrun2.
  change (length (objects w0)) with (length (objects w)) in Hstep.
  assert (Hstep' : rig_step (length (objects w)) w w2).
  { eapply rig_step_trans; [|exact Hstep]. apply rig_step_same; reflexivity. }
  destruct (rig_step_meshes w w2 Hstep') as (Fold & Fmesh).
  destruct Hstep' as (R1 & R2 & _ & R4 & _).
  destruct (main_render_prefix w2 t (R4 _ _ Hf)) as (p & q & Hobs & Hfl).
  exists p, q. split; [rewrite Hobs, Hnr; reflexivity|].
  rewrite <- Hfl. unfold target_meshes. rewrite Fmesh.
  apply flat_map_ext_in. intros x Hx. apply filter_In in Hx as [_ Hx].
  unfold output_paths, icons_dir_of. rewrite R2.
  destruct (Fold x (is_mesh_valid w x Hx)) as (_ & ->). reflexivity.
Qed.

(** ** Further properties: get-or-create of "Setup" *)

(** X12. [create_setup_collection] always returns a collection named
    "Setup". When one exists, the first of that name is returned as it is:
    nothing is created and nothing is linked to the scene. Otherwise one
    new, empty collection is appended and linked to the scene. Either way
    the objects are untouched, and a second call returns the same
    collection and adds none. *)
Theorem create_setup_collection_get_or_create (w : World) :
  exists (s : CollId) (w1 w2 : World),
    create_setup_collection w = Return (DataColl s) w1 /\
    named_at w1 s "Setup" /\
    match find_collection "Setup" w with
    | Some s0 => s = s0 /\ collections w1 = collections w
    | None => s = length (collections w) /\
              collections w1 = collections w ++ [setup_collection_new]
    end /\
    objects w1 = objects w /\
    create_setup_collection w1 = Return (DataColl s) w2 /\
    collections w2 = collections w1.
Proof.
  destruct (find_collection "Setup" w) as [s|] eqn:Hf.
  - exists s. do 2 eexists.
    split; [apply create_setup_collection_found, Hf|].
    split; [apply find_collection_Some in Hf; exact Hf|].
    split; [split; reflexivity|]. split; [reflexivity|].
    split; [apply create_setup_collection_found; exact Hf | reflexivity].
  - exists (length (collections w)). do 2 eexists.
    split; [apply create_setup_collection_fresh, Hf|].
    split; [exists setup_collection_new; split; [apply lookup_snoc_new | reflexivity]|].
    split; [split; reflexivity|]. split; [reflexivity|].
    split; [apply create_setup_collection_found,
              (find_collection_from_snoc 0); [exact Hf | reflexivity]
           | reflexivity].
Qed.

(** ** Further properties: the render settings left behind *)

Ltac settings_leaf :=
  unfold settings_are in *;
  cbn [world_of modify ret raise gets
       render set_mode set_objects set_collections set_master_objects
       set_datablocks set_scene_camera set_active_object set_fs
       set_stdout set_host_calls set_calls];
  assumption.

Ltac settings_run R :=
  repeat first
    [ apply (bind_world_inv (settings_are R)); [| intros ? ? ?]
    | apply (for_each_world_inv (settings_are R)); [intros ? ? ?|]
    | rewrite get_object_world
    | rewrite from_option_world
    | match goal with
      | |- context [match ?o with Some _ => _ | None => _ end] => destruct o
      | |- context [if ?b then _ else _] => destruct b
      | |- context [match ?c with SceneMaster => _ | DataColl _ => _ end] => destruct c
      end
    | settings_leaf ].

(** Whatever its outcome, standardising leaves the render settings alone. *)
Lemma standardize_object_keeps_settings (R : RenderSettings) (obj : ObjId) (w : World) :
  settings_are R w -> settings_are R (world_of (standardize_object obj w)).
Proof.
  intros Hw.
  unfold standardize_object, scale_object_to_fit_camera, mode_set, run_operator,
    update_object, print, host_call, enter.
  cbv zeta. change (String.eqb "XY" "XY") with true. cbv iota.
  settings_run R.
Qed.

Lemma main_setup_keeps_settings (R : RenderSettings) (w : World) :
  settings_are R w -> settings_are R (world_of (main_setup w)).
Proof.
  intros Hw.
  unfold main_setup, create_setup_collection, add_camera_to_collection,
    add_3_point_lighting_to_collection, ensure_unique_in_collection,
    view_layer_update, collection_exists, collection_by_name, lights_exist,
    new_collection, link_child_to_scene, new_camera_data, new_light_data,
    set_light_energy, new_object, link_object, unlink_object, update_object,
    print, host_call.
  settings_run R.
Qed.

Lemma standardize_loop_keeps_settings (R : RenderSettings) (xs : list ObjId) (w : World) :
  settings_are R w ->
  settings_are R (world_of (for_each xs (fun obj =>
     do o <- get_object obj ;
     if String.eqb (obj_type o) "MESH" then standardize_object obj else ret tt) w)).
Proof.
  intros Hr. apply (for_each_world_inv (settings_are R)); [|exact Hr].
  intros x wa Ha. apply (bind_world_inv (settings_are R)).
  - rewrite get_object_world. exact Ha.
  - intros o wb Hb. destruct (String.eqb (obj_type o) "MESH").
    + apply standardize_object_keeps_settings, Hb.
    + exact Hb.
Qed.

(** What a loop that completes leaves in a part of the state that each
    iteration either overwrites or leaves alone. *)
Lemma for_each_last {A S} (obs : World -> S) (I : World -> Prop)
      (p : A -> bool) (g : A -> S) (xs : list A) (body : A -> M unit) :
  (forall x w w1, I w -> body x w = Return tt w1 ->
     I w1 /\ obs w1 = if p x then g x else obs w) ->
  forall w w', I w -> for_each xs body w = Return tt w' ->
    I w' /\ obs w' = match last (List.filter p xs) with
                     | Some x => g x
                     | None => obs w
                     end.
Proof.
  intros Hbody. induction xs as [|x r IH]; intros w w' Hw Hrun;
    cbn [for_each List.filter] in *.
  - injection Hrun as <-. auto.
  - apply bind_Return_inv in Hrun as ([] & w1 & H1 & Hr).
    destruct (Hbody x w w1 Hw H1) as (Hw1 & Hc1).
    destruct (IH w1 w' Hw1 Hr) as (Hw' & Hc'). split; [exact Hw'|].
    rewrite Hc', Hc1. destruct (p x).
    + rewrite last_cons. destruct (last (List.filter p r)); reflexivity.
    + reflexivity.
Qed.

Lemma render_loop_body_settings (w0 : World) (icons_dir : string) (x : ObjId) (res : Z)
      (w w1 : World) :
  keeps w0 w ->
  (do o <- get_object x ;
   let icon_dir := path_join icons_dir (obj_name o) in
   setup_render_settings res ;;
   render_object x res icon_dir) w = Return tt w1 ->
  keeps w0 w1 /\
  render w1
  = if true
    then icon_settings res
           (path_join (path_join icons_dir (name_of w0 x)) (py_str_int res ++ ".png"))
    else render w.
Proof.
  intros Hk Hrun. split; [apply (render_loop_body w0 icons_dir x res w w1 Hk Hrun)|].
  rewrite bind_unfold in Hrun. unfold get_object in Hrun.
  destruct (objects w !! x) as [o|] eqn:E; [|discriminate].
  destruct (keeps_lookup w0 w x o Hk E) as (_ & ->).
  cbv zeta in Hrun. rewrite bind_unfold in Hrun.
  assert (Hs : exists ws, setup_render_settings res w = Return tt ws /\
                          objects ws = objects w /\
                          render ws
                          = set_film_transparent true
                              (set_color_mode "RGBA"
                                 (set_file_format "PNG"
                                    (set_resolution_y res
                                       (set_resolution_x res (render w)))))).
  { eexists. split; [reflexivity|]. msimpl. split; reflexivity. }
  destruct Hs as (ws & Hrs & Hos & Hcs). rewrite Hrs in Hrun.
  rewrite <- Hos in E. rewrite (render_object_run _ _ _ _ _ E) in Hrun.
  injection Hrun as <-. unfold rendered_world. msimpl.
  rewrite Hcs. destruct (render w). reflexivity.
Qed.

Lemma render_loop_settings (w0 : World) (icons_dir : string) (x : ObjId) (w w1 : World) :
  keeps w0 w ->
  (do o <- get_object x ;
   if String.eqb (obj_type o) "MESH" then
     print [PStr "Processing object: "; PStr (obj_name o)] ;;
     for_each RESOLUTIONS (fun res =>
       do o <- get_object x ;
       let icon_dir := path_join icons_dir (obj_name o) in
       setup_render_settings res ;;
       render_object x res icon_dir) ;;
     print [PStr (py_str_mul "-" 40)]
   else ret tt) w = Return tt w1 ->
  keeps w0 w1 /\
  render w1
  = if is_mesh w0 x
    then icon_settings 64 (path_join (path_join icons_dir (name_of w0 x)) "64.png")
    else render w.
Proof.
  intros Hk Hrun. rewrite bind_unfold in Hrun. unfold get_object in Hrun.
  destruct (objects w !! x) as [o|] eqn:E; [|discriminate].
  destruct (keeps_lookup w0 w x o Hk E) as (-> & _).
  destruct (String.eqb (obj_type o) "MESH").
  - rewrite bind_unfold in Hrun. cbn [print modify] in Hrun.
    apply bind_Return_inv in Hrun as ([] & w2 & Hloop & Hprint).
    apply (for_each_last render (keeps w0) (fun _ => true)
             (fun res => icon_settings res
                           (path_join (path_join icons_dir (name_of w0 x))
                                      (py_str_int res ++ ".png"))))
      in Hloop.
    + destruct Hloop as (Hk2 & Hc2). cbn [print modify] in Hprint.
      injection Hprint as <-. split; [exact Hk2|]. msimpl.
      rewrite Hc2. reflexivity.
    + intros res wa wb Hka Hb. eapply render_loop_body_settings; eassumption.
    + exact Hk.
  - injection Hrun as <-. auto.
Qed.

Lemma main_render_settings (w w' : World) (t : CollId) :
  find_collection "Target" w = Some t ->
  main_render w = Return tt w' ->
  render w' = settings_left w t.
Proof.
  intros Hf Hrun. unfold main_render in Hrun.
  assert (Hicons : exists w1, create_icons_folder w = Return (icons_dir_of w) w1 /\
            keeps w w1 /\ render w1 = render w).
  { unfold create_icons_folder, makedirs, icons_dir_of. msimpl.
    destruct (existsb _ (fs w)); msimpl; eexists;
      (split; [reflexivity|]); (split; [repeat split|]); reflexivity. }
  destruct Hicons as (w1 & Hrun1 & Hk1 & Hc1).
  rewrite bind_unfold, Hrun1 in Hrun.
  assert (Hf1 : find_collection "Target" w1 = Some t).
  { unfold find_collection. destruct Hk1 as (-> & _). exact Hf. }
  assert (Hmem : forall wx, keeps w wx ->
            collection_objects (DataColl t) wx = Return (members w (DataColl t)) wx).
  { intros wx (Hcx & _). unfold collection_objects, members, coll_objects_at, gets.
    rewrite Hcx. reflexivity. }
  unfold collection_by_name in Hrun. rewrite !bind_unfold in Hrun.
  cbn [gets] in Hrun. rewrite Hf1 in Hrun. cbn [ret] in Hrun.
  rewrite bind_unfold, (Hmem w1 Hk1) in Hrun.
  apply bind_Return_inv in Hrun as ([] & w2 & Hloop1 & Hrun).
  pose proof (standardize_loop_keeps_settings (render w) (members w (DataColl t)) w1 Hc1)
    as Hc2.
  rewrite Hloop1 in Hc2. cbn [world_of] in Hc2. unfold settings_are in Hc2.
  apply (for_each_obs (fun w => render_paths (host_calls w)) (keeps w)
           (fun _ => [])) in Hloop1;
    [|intros x wa wb Hka Hb; eapply standardize_loop_no_render; eassumption | exact Hk1].
  destruct Hloop1 as (Hk2 & _).
  rewrite bind_unfold, (Hmem w2 Hk2) in Hrun.
  apply bind_Return_inv in Hrun as ([] & w3 & Hloop2 & Hprint).
  apply (for_each_last render (keeps w) (is_mesh w)
           (fun x => icon_settings 64
                       (path_join (path_join (icons_dir_of w) (name_of w x)) "64.png")))
    in Hloop2;
    [|intros x wa wb Hka Hb; eapply render_loop_settings; eassumption | exact Hk2].
  destruct Hloop2 as (_ & Hc3). cbn [print modify] in Hprint. injection Hprint as <-.
  msimpl. rewrite Hc3, Hc2. reflexivity.
Qed.

(** X13. A completed run of [main] does not restore the scene's render
    settings. With at least one mesh in "Target" they are left as the last
    render set them: 64 x 64, PNG, RGBA, transparent film, and the output
    path [64.png] of the last mesh of "Target". With no mesh in "Target"
    they are as they were. *)
Theorem main_leaves_render_settings (w w' : World) (t : CollId) :
  find_collection "Target" w = Some t ->
  main w = Return tt w' ->
  render w' = settings_left w t.
Proof.
  intros Hf Hrun. unfold main, ensure_object_mode, mode_set, collection_exists in Hrun.
  do 3 (rewrite bind_unfold in Hrun; cbn [host_call modify gets] in Hrun).
  set (w0 := set_mode "OBJECT" (set_host_calls (host_calls w ++ [HModeSet "OBJECT"]) w))
    in Hrun.
  assert (Hf0 : find_collection "Target" w0 = Some t) by exact Hf.
  rewrite Hf0 in Hrun. cbn [negb] in Hrun.
  destruct (main_setup_run w0) as (s & cam & lights & w2 & Hrun2 & _ & _ & _ & Hstep).
  pose proof (main_setup_keeps_settings (render w) w0 eq_refl) as Hnr.
  rewrite Hrun2 in Hnr. cbn [world_of] in Hnr. unfold settings_are in Hnr.
  rewrite bind_unfold, Hrun2 in Hrun.
  change (length (objects w0)) with (length (objects w)) in Hstep.
  assert (Hstep' : rig_step (length (objects w)) w w2).
  { eapply rig_step_trans; [|exact Hstep]. apply rig_step_same; reflexivity. }
  destruct (rig_step_meshes w w2 Hstep') as (Fold & Fmesh).
  destruct Hstep' as (R1 & R2 & _ & R4 & _).
  rewrite (main_render_settings w2 w' t (R4 _ _ Hf) Hrun).
  unfold settings_left, target_meshes. rewrite Fmesh, Hnr.
  destruct (last (List.filter (is_mesh w) (members w (DataColl t)))) as [x|] eqn:El;
    [|reflexivity].
  apply last_Some in El as (l' & El).
  assert (Hx : In x (List.filter (is_mesh w) (members w (DataColl t)))).
  { rewrite El. apply in_or_app. right. left. reflexivity. }
  apply filter_In in Hx as [_ Hx].
  unfold icons_dir_of. rewrite R2.
  destruct (Fold x (is_mesh_valid w x Hx)) as (_ & ->). reflexivity.
Qed.

(** ** Further properties: how [main] can fail *)













End Properties.

(** * The theorems at the concrete scenes *)




Lemma render_object_visibility_witness :
  exists w' : World,
    render_object 0 1024 "/home/user/models/Icons/Cube" cube_scene = Return tt w' /\
    forall (i : ObjId) (o : Object),
      objects cube_scene !! i = Some o ->
      objects w' !! i =
        Some (if in_scene cube_scene i
              then set_hide_render
                     (negb (Nat.eqb i 0) && negb (String.eqb (obj_type o) "LIGHT")) o
              else o).
Proof.
  apply (render_object_visibility 0 1024 "/home/user/models/Icons/Cube" cube_scene cube).
  reflexivity.
Defined.

Lemma plain_name_Cube : plain_name "Cube".
Proof. repeat split. discriminate. Defined.

Lemma render_path_under_icons_witness :
  exists (icons_dir : string) (w1 w2 : World),
    create_icons_folder cube_scene = Return icons_dir w1 /\
    render_object 0 256 (path_join icons_dir "Cube") w1 = Return tt w2 /\
    filepath (render w2) = "/home/user/models/Icons/Cube/256.png" /\
    host_calls w2 = host_calls w1 ++ [HRender "/home/user/models/Icons/Cube/256.png"].
Proof.
  apply (render_path_under_icons cube_scene 0 cube 256).
  - reflexivity.
  - exact plain_name_Cube.
  - cbn. tauto.
Defined.

(** Counterexample to C2 as stated: a mesh named "/tmp/x" is rendered to
    "/tmp/x/1024.png", outside the Icons directory of the scene file. *)
Lemma render_path_absolute_name :
  exists (icons_dir : string) (w1 w2 : World),
    create_icons_folder slash_scene = Return icons_dir w1 /\
    render_object 0 1024 (path_join icons_dir (obj_name slash_mesh)) w1 = Return tt w2 /\
    filepath (render w2) = "/tmp/x/1024.png" /\
    host_calls w2 = host_calls w1 ++ [HRender "/tmp/x/1024.png"] /\
    filepath (render w2)
    <> path_join (path_dirname (blend_filepath slash_scene))
                 ("Icons/" ++ obj_name slash_mesh ++ "/" ++ py_str_int 1024 ++ ".png").
Proof.
  exists "/home/user/models/Icons",
         (world_of (create_icons_folder slash_scene)),
         (world_of (render_object 0 1024 "/tmp/x"
                      (world_of (create_icons_folder slash_scene)))).
  split; [vm_compute; reflexivity|]. split; [vm_compute; reflexivity|].
  split; [vm_compute; reflexivity|]. split; [vm_compute; reflexivity|].
  vm_compute. discriminate.
Qed.




Lemma main_processes_target_meshes_witness :
  calls (world_of (main (H := example_host) cube_scene))
  = calls cube_scene
    ++ map CStandardize (target_meshes cube_scene 0)
    ++ flat_map (renders_of cube_scene) (target_meshes cube_scene 0).
Proof.
  apply (main_processes_target_meshes (H := example_host) cube_scene
           (world_of (main (H := example_host) cube_scene)) 0).
  - reflexivity.
  - vm_compute. reflexivity.
Defined.

(** What the last equation says on the cube scene: the cube is
    standardized and rendered five times, the empty is left alone. *)
Example cube_scene_calls :
  calls (world_of (main (H := example_host) cube_scene))
  = [ CStandardize 0;
      CRender 0 1024 "/home/user/models/Icons/Cube";
      CRender 0 512 "/home/user/models/Icons/Cube";
      CRender 0 256 "/home/user/models/Icons/Cube";
      CRender 0 128 "/home/user/models/Icons/Cube";
      CRender 0 64 "/home/user/models/Icons/Cube" ].
Proof. vm_compute. reflexivity. Qed.

(** ** Further properties at the concrete scenes *)


Lemma add_3_point_lighting_creates_witness :
  exists (k f b : Object) (nk nf nb : string) (w' : World),
    add_3_point_lighting_to_collection (H := example_host) (DataColl 0) cube_scene
    = Return [length (objects cube_scene); length (objects cube_scene) + 1;
              length (objects cube_scene) + 2] w' /\
    objects w' = objects cube_scene ++ [k; f; b] /\
    datablocks w'
    = datablocks cube_scene ++ [LightData nk "POINT" 3000; LightData nf "POINT" 1500;
                                LightData nb "POINT" 900] /\
    (obj_type k = "LIGHT" /\ obj_type f = "LIGHT" /\ obj_type b = "LIGHT") /\
    (obj_data k = Some (length (datablocks cube_scene)) /\
     obj_data f = Some (length (datablocks cube_scene) + 1) /\
     obj_data b = Some (length (datablocks cube_scene) + 2)) /\
    (location (geom k) = (5, -5, 5)%float /\
     location (geom f) = (-5, -5, 5)%float /\
     location (geom b) = (0, 5, 5)%float) /\
    forall ref,
      members w' ref
      = members cube_scene ref ++
        (if CollRef_eqb ref (DataColl 0)
         then [length (objects cube_scene); length (objects cube_scene) + 1;
               length (objects cube_scene) + 2]
         else []).
Proof.
  apply (add_3_point_lighting_creates (H := example_host) 0 cube_scene).
  - simpl. lia.
  - reflexivity.
Defined.



Lemma main_issues_renders_witness :
  render_paths (host_calls (world_of (main (H := example_host) cube_scene)))
  = render_paths (host_calls cube_scene)
    ++ flat_map (output_paths cube_scene) (target_meshes cube_scene 0).
Proof.
  apply (main_issues_renders (H := example_host) cube_scene
           (world_of (main (H := example_host) cube_scene)) 0).
  - reflexivity.
  - vm_compute. reflexivity.
Defined.

Lemma cube_scene_plain_names (x : ObjId) :
  In x (target_meshes cube_scene 0) -> plain_name (name_of cube_scene x).
Proof.
  intros Hx. vm_compute in Hx. destruct Hx as [<-|[]]. exact plain_name_Cube.
Defined.

Lemma main_renders_under_icons_witness :
  render_paths (host_calls (world_of (main (H := example_host) cube_scene)))
  = render_paths (host_calls cube_scene)
    ++ flat_map
         (fun x =>
            map (fun res =>
                   path_join (path_dirname (blend_filepath cube_scene))
                     ("Icons/" ++ name_of cube_scene x ++ "/" ++ py_str_int res ++ ".png"))
                RESOLUTIONS)
         (target_meshes cube_scene 0).
Proof.
  apply (main_renders_under_icons (H := example_host) cube_scene
           (world_of (main (H := example_host) cube_scene)) 0).
  - reflexivity.
  - exact cube_scene_plain_names.
  - vm_compute. reflexivity.
Defined.

(** What the last equation says on the cube scene. *)
Example cube_scene_renders :
  render_paths (host_calls (world_of (main (H := example_host) cube_scene)))
  = [ "/home/user/models/Icons/Cube/1024.png";
      "/home/user/models/Icons/Cube/512.png";
      "/home/user/models/Icons/Cube/256.png";
      "/home/user/models/Icons/Cube/128.png";
      "/home/user/models/Icons/Cube/64.png" ].
Proof. vm_compute. reflexivity. Qed.

Lemma main_renders_initial_segment_witness :
  exists p q,
    render_paths (host_calls (world_of (main (H := example_host) flat_scene)))
    = render_paths (host_calls flat_scene) ++ p /\
    flat_map (output_paths flat_scene) (target_meshes flat_scene 0) = p ++ q.
Proof.
  apply (main_renders_initial_segment (H := example_host) flat_scene 0). reflexivity.
Defined.

Lemma main_leaves_render_settings_witness :
  render (world_of (main (H := example_host) cube_scene)) = settings_left cube_scene 0.
Proof.
  apply (main_leaves_render_settings (H := example_host) cube_scene
           (world_of (main (H := example_host) cube_scene)) 0).
  - reflexivity.
  - vm_compute. reflexivity.
Defined.



(** The run on the flat scene: the needle cannot be scaled, and [main]
    stops there. *)
Example flat_scene_fails :
  exists w', main (H := example_host) flat_scene = Raise ZeroDivisionError w' /\
             calls w' = [CStandardize 0] /\
             render_paths (host_calls w') = [].
Proof. eexists. split; [vm_compute; reflexivity|]. split; reflexivity. Qed.
